(** * blogicum: the views of [blog/views.py] over a relational store

    The handlers of [blog/views.py] are thin adapters over an
    object-relational mapper.  They are embedded here as functions over an
    explicit database value: every table is a finite map from primary key to
    row, a queryset is the list of [(pk, row)] pairs it evaluates to, the
    exceptions a view can raise are an error monad, and a view that writes
    returns the new database next to its response. *)

From Stdlib Require Import ZArith.
From stdpp Require Import base option list sorting gmap strings.

Local Open Scope Z_scope.

(** ** Exceptions and responses *)

Inductive exn : Type :=
  | Http404
  | DoesNotExist
  | MultipleObjectsReturned
  | RelatedObjectDoesNotExist
  | IntegrityError
  | ValueError.

Inductive result (A : Type) : Type :=
  | Ok (a : A)
  | Raise (e : exn).
Arguments Ok {A} a.
Arguments Raise {A} e.

#[global] Instance result_ret : MRet result := λ A a, Ok a.

#[global] Instance result_bind : MBind result := λ A B k r,
  match r with
  | Ok a => k a
  | Raise e => Raise e
  end.

#[global] Instance exn_eq_dec : EqDecision exn.
Proof. solve_decision. Defined.

(** ** models.py *)

(** Modelled from the spec: the user model, which [blog/models.py] and the
    settings select and which is not among the sources.  The spec's data
    model gives a User an identity with a username, email and display
    names. *)
Module User.
Record t : Type := mk
  { username : string; email : string;
    first_name : string; last_name : string }.

Inductive lookup : Type :=
  | username_exact (v : string).

Definition holds (row : nat * t) (l : lookup) : bool :=
  match l with
  | username_exact v => bool_decide (username row.2 = v)
  end.
End User.

(** [request.user]: the anonymous user, or a stored user, represented by
    its primary key. *)
Inductive request_user : Type :=
  | AnonymousUser
  | Authenticated (pk : nat).

#[global] Instance request_user_eq_dec : EqDecision request_user.
Proof. solve_decision. Defined.

Definition is_authenticated (u : request_user) : bool :=
  match u with
  | AnonymousUser => false
  | Authenticated _ => true
  end.

(** Model instances compare by primary key; the anonymous user is equal to
    no stored user.  This is [instance == request.user]. *)
Definition user_eq (pk : nat) (u : request_user) : bool :=
  match u with
  | AnonymousUser => false
  | Authenticated k => bool_decide (pk = k)
  end.

(** Modelled from the spec: the Category of [blog/models.py], a named,
    sluggable grouping with a published flag. *)
Module Category.
Record t : Type := mk
  { title : string; slug : string; is_published : bool }.

Inductive lookup : Type :=
  | slug_exact (v : string)
  | is_published_exact (v : bool).

Definition holds (row : nat * t) (l : lookup) : bool :=
  match l with
  | slug_exact v => bool_decide (slug row.2 = v)
  | is_published_exact v => bool_decide (is_published row.2 = v)
  end.
End Category.

(** Modelled from the spec: the Location of [blog/models.py], which
    carries a published flag. *)
Module Location.
Record t : Type := mk
  { name : string; is_published : bool }.
End Location.

(** Modelled from the spec: the Post of [blog/models.py].  It has a title,
    a body, a publish timestamp and a published flag, and belongs to exactly
    one author, one category and one location, each held as the primary key
    of the related row. *)
Module Post.
Record t : Type := mk
  { title : string; text : string; pub_date : Z; is_published : bool;
    author : nat; category : nat; location : nat }.
End Post.

(** Modelled from the spec: the Comment of [blog/models.py].  It has a body
    text and belongs to exactly one author and exactly one post.  [instance]
    is the in-memory object a form works on: before the first save its two
    references may be unset. *)
Module Comment.
Record t : Type := mk
  { text : string; author : nat; post : nat }.

Record instance : Type := mk_instance
  { instance_text : string;
    instance_author : option nat;
    instance_post : option nat }.

Definition blank : instance :=
  {| instance_text := EmptyString;
     instance_author := None; instance_post := None |}.

Definition to_instance (c : t) : instance :=
  {| instance_text := text c;
     instance_author := Some (author c);
     instance_post := Some (post c) |}.

Definition set_post (i : instance) (post_pk : nat) : instance :=
  {| instance_text := instance_text i;
     instance_author := instance_author i;
     instance_post := Some post_pk |}.

Definition set_author (i : instance) (user_pk : nat) : instance :=
  {| instance_text := instance_text i;
     instance_author := Some user_pk;
     instance_post := instance_post i |}.

(** The row an instance is written as; a reference left unset violates
    the NOT NULL constraint of its column. *)
Definition to_row (i : instance) : result t :=
  match instance_author i, instance_post i with
  | Some a, Some p => Ok {| text := instance_text i; author := a; post := p |}
  | _, _ => Raise IntegrityError
  end.

Inductive lookup : Type :=
  | pk_exact (v : nat)
  | post_id_exact (v : nat).

Definition holds (row : nat * t) (l : lookup) : bool :=
  match l with
  | pk_exact v => bool_decide (row.1 = v)
  | post_id_exact v => bool_decide (post row.2 = v)
  end.
End Comment.

(** The database: one table per model, keyed by primary key. *)
Record DB : Type := mkDB
  { User_objects : gmap nat User.t;
    Category_objects : gmap nat Category.t;
    Location_objects : gmap nat Location.t;
    Post_objects : gmap nat Post.t;
    Comment_objects : gmap nat Comment.t }.

(** ** The object-relational mapper *)

(** [Model.objects.all()] *)
Definition objects_all {A} (table : gmap nat A) : list (nat * A) :=
  map_to_list table.

(** [queryset.filter(lookups)]: a row is kept when every lookup holds. *)
Definition qs_filter {R L} (holds : R → L → bool)
    (lookups : list L) (qs : list R) : list R :=
  filter (λ row, forallb (holds row) lookups) qs.

(** [queryset.get()] *)
Definition qs_get {R} (qs : list R) : result R :=
  match qs with
  | [] => Raise DoesNotExist
  | [row] => Ok row
  | _ :: _ :: _ => Raise MultipleObjectsReturned
  end.

(** [get_object_or_404(Model, lookups)] *)
Definition get_object_or_404 {A L} (holds : nat * A → L → bool)
    (table : gmap nat A) (lookups : list L) : result (nat * A) :=
  match qs_get (qs_filter holds lookups (objects_all table)) with
  | Raise DoesNotExist => Raise Http404
  | r => r
  end.

(** Following a foreign key: [instance.field]. *)
Definition related {A} (table : gmap nat A) (pk : nat) : result (nat * A) :=
  match table !! pk with
  | Some row => Ok (pk, row)
  | None => Raise RelatedObjectDoesNotExist
  end.

(** [queryset.order_by('-pub_date')] *)
Definition pub_date_desc {R} (key : R → Z) : relation R :=
  λ x y, key y ≤ key x.

#[global] Instance pub_date_desc_dec {R} (key : R → Z) :
  RelDecision (pub_date_desc key).
Proof. intros x y. unfold pub_date_desc. apply _. Defined.

Definition order_by_desc {R} (key : R → Z) (qs : list R) : list R :=
  merge_sort (pub_date_desc key) qs.

(** The lookups the views use on posts.  A lookup that spans a relation is
    an inner join: a post whose related row is missing matches nothing. *)
Inductive Post_lookup : Type :=
  | pk_exact (v : nat)
  | is_published_exact (v : bool)
  | category__is_published_exact (v : bool)
  | location__is_published_exact (v : bool)
  | pub_date__lte (v : Z)
  | author_exact (v : nat)
  | category_exact (v : nat).

Definition Post_holds (db : DB) (row : nat * Post.t) (l : Post_lookup) : bool :=
  match l with
  | pk_exact v => bool_decide (row.1 = v)
  | is_published_exact v => bool_decide (Post.is_published row.2 = v)
  | category__is_published_exact v =>
      match Category_objects db !! Post.category row.2 with
      | Some c => bool_decide (Category.is_published c = v)
      | None => false
      end
  | location__is_published_exact v =>
      match Location_objects db !! Post.location row.2 with
      | Some l => bool_decide (Location.is_published l = v)
      | None => false
      end
  | pub_date__lte v => bool_decide (Post.pub_date row.2 ≤ v)
  | author_exact v => bool_decide (Post.author row.2 = v)
  | category_exact v => bool_decide (Post.category row.2 = v)
  end.

(** [Count('comments')]: the comments whose post is the given one. *)
Definition Count_comments (db : DB) (post_pk : nat) : nat :=
  length (qs_filter Comment.holds [Comment.post_id_exact post_pk]
            (objects_all (Comment_objects db))).

(** [queryset.annotate(comment_count=Count('comments'))]: every post of the
    queryset once, next to its count. *)
Definition annotate_comment_count (db : DB) (qs : list (nat * Post.t))
    : list (nat * Post.t * nat) :=
  (λ row, (row, Count_comments db row.1)) <$> qs.

(** [paginate_by = 10]: a list view shows its queryset ten rows to the
    page.  [Paginator.page(number)] is the slice
    [(number - 1) * per_page : number * per_page]; a number below one or
    beyond the last page is not found, and an empty queryset has one, empty
    page. *)
Definition paginate_by : nat := 10.

Definition num_pages (per_page count : nat) : nat :=
  if bool_decide (count = 0%nat) then 1%nat
  else ((count + per_page - 1) / per_page)%nat.

Definition paginate_queryset {R} (per_page number : nat) (queryset : list R)
    : result (list R) :=
  if bool_decide (1 ≤ number)%nat
     && bool_decide (number ≤ num_pages per_page (length queryset))%nat
  then Ok (take per_page (drop ((number - 1) * per_page) queryset))
  else Raise Http404.

(** ** views.py: the read-only views *)

Module PostListView.
Definition get_queryset (db : DB) (now : Z) : list (nat * Post.t * nat) :=
  annotate_comment_count db
    (order_by_desc (λ row, Post.pub_date row.2)
       (qs_filter (Post_holds db)
          [is_published_exact true; category__is_published_exact true;
           location__is_published_exact true; pub_date__lte now]
          (objects_all (Post_objects db)))).
End PostListView.

Module PostDetailView.
Definition get_object (db : DB) (user : request_user) (post_id : nat)
    : result (nat * Post.t) :=
  post ← get_object_or_404 (Post_holds db) (Post_objects db) [pk_exact post_id];
  author ← related (User_objects db) (Post.author post.2);
  if user_eq author.1 user then Ok post
  else if Post.is_published post.2 then
    category ← related (Category_objects db) (Post.category post.2);
    if Category.is_published category.2 then
      location ← related (Location_objects db) (Post.location post.2);
      if Location.is_published location.2 then Ok post else Raise Http404
    else Raise Http404
  else Raise Http404.
End PostDetailView.

Module CategoryPostsListView.
Definition get_category (db : DB) (category_slug : string)
    : result (nat * Category.t) :=
  get_object_or_404 Category.holds (Category_objects db)
    [Category.slug_exact category_slug; Category.is_published_exact true].

(** [category.posts] is the related manager: the posts of that category.
    [select_related] only prefetches the rows the foreign keys name. *)
Definition get_queryset (db : DB) (now : Z) (category_slug : string)
    : result (list (nat * Post.t * nat)) :=
  category ← get_category db category_slug;
  Ok (annotate_comment_count db
        (order_by_desc (λ row, Post.pub_date row.2)
           (qs_filter (Post_holds db)
              [is_published_exact true; pub_date__lte now;
               category__is_published_exact true]
              (qs_filter (Post_holds db) [category_exact category.1]
                 (objects_all (Post_objects db)))))).
End CategoryPostsListView.

Module UserDetailView.
(** [author.posts] is the related manager: the posts of that author. *)
Definition get_queryset (db : DB) (now : Z) (user : request_user)
    (username : string) : result (list (nat * Post.t * nat)) :=
  author ← get_object_or_404 User.holds (User_objects db)
              [User.username_exact username];
  let queryset :=
    order_by_desc (λ row : nat * Post.t * nat, Post.pub_date row.1.2)
      (annotate_comment_count db
         (qs_filter (Post_holds db) [author_exact author.1]
            (objects_all (Post_objects db)))) in
  if negb (user_eq author.1 user)
  then Ok (qs_filter (λ row : nat * Post.t * nat, Post_holds db row.1)
             [pub_date__lte now] queryset)
  else Ok queryset.
End UserDetailView.

(** ** Requests, responses and the view monad *)

Inductive http_method : Type :=
  | GET | HEAD | POST | PUT | PATCH | DELETE | OPTIONS | TRACE.

(** The body of a submitted form: field names and the strings sent. *)
Definition QueryDict : Type := list (string * string).

Record HttpRequest : Type := mkRequest
  { user : request_user; method : http_method; POST_data : QueryDict }.

(** [reverse(name, kwargs)] for the named routes the views redirect to, and
    the login page of [redirect_to_login]. *)
Inductive url : Type :=
  | blog_post_detail (post_id : nat)
  | blog_profile (username : string)
  | LOGIN_URL.

Inductive HttpResponse : Type :=
  | TemplateResponse (template_name : string)
  | HttpResponseRedirect (to : url)
  | HttpResponseNotAllowed
  | HttpResponseAllow.

(** The form classes of [blog/forms.py], which is not among the sources,
    are arguments of the views.  A model form takes the submitted body and
    the instance it is bound to; it is valid when it yields the instance
    with its fields applied. *)
Definition ModelForm (I : Type) : Type := QueryDict → I → option I.

(** A view runs against the database, may change it and may raise. *)
Definition view (A : Type) : Type := DB → result A * DB.

#[global] Instance view_ret : MRet view := λ A a db, (Ok a, db).

#[global] Instance view_bind : MBind view := λ A B k m db,
  match m db with
  | (Ok a, db') => k a db'
  | (Raise e, db') => (Raise e, db')
  end.

Definition query {A} (q : DB → result A) : view A := λ db, (q db, db).

Definition save_Post (pk : nat) (row : Post.t) : view unit := λ db,
  (Ok (),
   {| User_objects := User_objects db;
      Category_objects := Category_objects db;
      Location_objects := Location_objects db;
      Post_objects := <[pk := row]> (Post_objects db);
      Comment_objects := Comment_objects db |}).

(** [post.delete()]: the row goes, and the comments that refer to it are
    treated as the [on_delete] rule of [Comment.post] says.  That rule is
    declared in [blog/models.py] and is taken as an argument. *)
Definition delete_Post
    (on_delete : nat → gmap nat Comment.t → gmap nat Comment.t)
    (pk : nat) : view unit := λ db,
  (Ok (),
   {| User_objects := User_objects db;
      Category_objects := Category_objects db;
      Location_objects := Location_objects db;
      Post_objects := delete pk (Post_objects db);
      Comment_objects := on_delete pk (Comment_objects db) |}).

(** [comment.save()]: an instance without a primary key is inserted under a
    key the table does not use yet, one with a key overwrites its row. *)
Definition save_Comment (pk : option nat) (i : Comment.instance)
    : view (nat * Comment.t) := λ db,
  match Comment.to_row i with
  | Raise e => (Raise e, db)
  | Ok row =>
      let k := default (fresh (dom (Comment_objects db))) pk in
      (Ok (k, row),
       {| User_objects := User_objects db;
          Category_objects := Category_objects db;
          Location_objects := Location_objects db;
          Post_objects := Post_objects db;
          Comment_objects := <[k := row]> (Comment_objects db) |})
  end.

Definition delete_Comment (pk : nat) : view unit := λ db,
  (Ok (),
   {| User_objects := User_objects db;
      Category_objects := Category_objects db;
      Location_objects := Location_objects db;
      Post_objects := Post_objects db;
      Comment_objects := delete pk (Comment_objects db) |}).

(** [View.dispatch]: the handler named after the request method, and
    [http_method_not_allowed] when the view has none of that name.  Every
    view answers OPTIONS itself, and HEAD as it answers GET. *)
Definition View_dispatch (request : HttpRequest)
    (handler : http_method → option (view HttpResponse))
    : view HttpResponse :=
  match method request with
  | OPTIONS => mret HttpResponseAllow
  | m =>
      match handler (if m is HEAD then GET else m) with
      | Some h => h
      | None => mret HttpResponseNotAllowed
      end
  end.

(** The handlers of [CreateView] and [UpdateView]: [put] is [post]. *)
Definition ProcessFormView (get post : view HttpResponse)
    (m : http_method) : option (view HttpResponse) :=
  match m with
  | GET => Some get
  | POST | PUT => Some post
  | _ => None
  end.

(** The handlers of [DeleteView]: [post] is [delete]. *)
Definition DeletionMixin (get delete : view HttpResponse)
    (m : http_method) : option (view HttpResponse) :=
  match m with
  | GET => Some get
  | POST | DELETE => Some delete
  | _ => None
  end.

Module LoginRequiredMixin.
Definition dispatch (request : HttpRequest)
    (super_dispatch : view HttpResponse) : view HttpResponse :=
  if negb (is_authenticated (user request))
  then mret (HttpResponseRedirect LOGIN_URL)
  else super_dispatch.
End LoginRequiredMixin.

(** ** views.py: the views that write *)

Module AuthorPostMixin.
Definition dispatch (get_object : view (nat * Post.t))
    (request : HttpRequest) (super_dispatch : view HttpResponse)
    : view HttpResponse :=
  post ← get_object;
  author ← query (λ db, related (User_objects db) (Post.author post.2));
  if negb (user_eq author.1 (user request))
  then mret (HttpResponseRedirect (blog_post_detail post.1))
  else super_dispatch.
End AuthorPostMixin.

Module PostEditView.
Definition template_name : string := "blog/create.html".

Definition get_object (post_id : nat) : view (nat * Post.t) :=
  query (λ db, get_object_or_404 (Post_holds db) (Post_objects db)
                 [pk_exact post_id]).

Definition get_success_url (object : nat * Post.t) : url :=
  blog_post_detail object.1.

Definition get (post_id : nat) : view HttpResponse :=
  _ ← get_object post_id;
  mret (TemplateResponse template_name).

Definition post (PostForm : ModelForm Post.t) (request : HttpRequest)
    (post_id : nat) : view HttpResponse :=
  object ← get_object post_id;
  match PostForm (POST_data request) object.2 with
  | Some row =>
      _ ← save_Post object.1 row;
      mret (HttpResponseRedirect (get_success_url (object.1, row)))
  | None => mret (TemplateResponse template_name)
  end.

Definition dispatch (PostForm : ModelForm Post.t) (request : HttpRequest)
    (post_id : nat) : view HttpResponse :=
  AuthorPostMixin.dispatch (get_object post_id) request
    (LoginRequiredMixin.dispatch request
       (View_dispatch request
          (ProcessFormView (get post_id) (post PostForm request post_id)))).
End PostEditView.

Module PostDeleteView.
Definition template_name : string := "blog/create.html".

Definition get_object (post_id : nat) : view (nat * Post.t) :=
  query (λ db, get_object_or_404 (Post_holds db) (Post_objects db)
                 [pk_exact post_id]).

Definition get_success_url (object : nat * Post.t) : view url :=
  author ← query (λ db, related (User_objects db) (Post.author object.2));
  mret (blog_profile (User.username author.2)).

Definition get (post_id : nat) : view HttpResponse :=
  _ ← get_object post_id;
  mret (TemplateResponse template_name).

Definition delete
    (on_delete : nat → gmap nat Comment.t → gmap nat Comment.t)
    (post_id : nat) : view HttpResponse :=
  object ← get_object post_id;
  success_url ← get_success_url object;
  _ ← delete_Post on_delete object.1;
  mret (HttpResponseRedirect success_url).

Definition dispatch
    (on_delete : nat → gmap nat Comment.t → gmap nat Comment.t)
    (request : HttpRequest) (post_id : nat) : view HttpResponse :=
  AuthorPostMixin.dispatch (get_object post_id) request
    (LoginRequiredMixin.dispatch request
       (View_dispatch request
          (DeletionMixin (get post_id) (delete on_delete post_id)))).
End PostDeleteView.

Module CommentCreateView.
Definition template_name : string := "blog/comment.html".

Definition get_success_url (post_id : nat) : url :=
  blog_post_detail post_id.

Definition form_valid (request : HttpRequest) (post_id : nat)
    (instance : Comment.instance) : view HttpResponse :=
  post ← query (λ db, get_object_or_404 (Post_holds db) (Post_objects db)
                        [pk_exact post_id]);
  let instance := Comment.set_post instance post.1 in
  match user request with
  | AnonymousUser => query (λ _, Raise ValueError)
  | Authenticated pk =>
      let instance := Comment.set_author instance pk in
      _ ← save_Comment None instance;
      mret (HttpResponseRedirect (get_success_url post_id))
  end.

Definition get : view HttpResponse :=
  mret (TemplateResponse template_name).

Definition post (CommentForm : ModelForm Comment.instance)
    (request : HttpRequest) (post_id : nat) : view HttpResponse :=
  match CommentForm (POST_data request) Comment.blank with
  | Some instance => form_valid request post_id instance
  | None => mret (TemplateResponse template_name)
  end.

Definition dispatch (CommentForm : ModelForm Comment.instance)
    (request : HttpRequest) (post_id : nat) : view HttpResponse :=
  LoginRequiredMixin.dispatch request
    (View_dispatch request
       (ProcessFormView get (post CommentForm request post_id))).
End CommentCreateView.

Module AuthorCommentMixin.
Definition dispatch (get_object : view (nat * Comment.t))
    (request : HttpRequest) (super_dispatch : view HttpResponse)
    : view HttpResponse :=
  comment ← get_object;
  author ← query (λ db, related (User_objects db) (Comment.author comment.2));
  if negb (user_eq author.1 (user request))
  then
    post ← query (λ db, related (Post_objects db) (Comment.post comment.2));
    mret (HttpResponseRedirect (blog_post_detail post.1))
  else super_dispatch.
End AuthorCommentMixin.

Module CommentEditView.
Definition template_name : string := "blog/comment.html".

Definition get_object (comment_id : nat) : view (nat * Comment.t) :=
  query (λ db, get_object_or_404 Comment.holds (Comment_objects db)
                 [Comment.pk_exact comment_id]).

Definition get_success_url (post_id : nat) : url :=
  blog_post_detail post_id.

Definition get (comment_id : nat) : view HttpResponse :=
  _ ← get_object comment_id;
  mret (TemplateResponse template_name).

Definition post (CommentForm : ModelForm Comment.instance)
    (request : HttpRequest) (post_id comment_id : nat)
    : view HttpResponse :=
  object ← get_object comment_id;
  match CommentForm (POST_data request) (Comment.to_instance object.2) with
  | Some instance =>
      _ ← save_Comment (Some object.1) instance;
      mret (HttpResponseRedirect (get_success_url post_id))
  | None => mret (TemplateResponse template_name)
  end.

Definition dispatch (CommentForm : ModelForm Comment.instance)
    (request : HttpRequest) (post_id comment_id : nat)
    : view HttpResponse :=
  AuthorCommentMixin.dispatch (get_object comment_id) request
    (LoginRequiredMixin.dispatch request
       (View_dispatch request
          (ProcessFormView (get comment_id)
             (post CommentForm request post_id comment_id)))).
End CommentEditView.

Module CommentDeleteView.
Definition template_name : string := "blog/comment.html".

Definition get_object (post_id comment_id : nat)
    : view (nat * Comment.t) :=
  query (λ db, get_object_or_404 Comment.holds (Comment_objects db)
                 [Comment.pk_exact comment_id;
                  Comment.post_id_exact post_id]).

Definition get_success_url (post_id : nat) : url :=
  blog_post_detail post_id.

Definition get (post_id comment_id : nat) : view HttpResponse :=
  _ ← get_object post_id comment_id;
  mret (TemplateResponse template_name).

Definition delete (post_id comment_id : nat) : view HttpResponse :=
  object ← get_object post_id comment_id;
  _ ← delete_Comment object.1;
  mret (HttpResponseRedirect (get_success_url post_id)).

Definition dispatch (request : HttpRequest) (post_id comment_id : nat)
    : view HttpResponse :=
  AuthorCommentMixin.dispatch (get_object post_id comment_id) request
    (LoginRequiredMixin.dispatch request
       (View_dispatch request
          (DeletionMixin (get post_id comment_id)
             (delete post_id comment_id)))).
End CommentDeleteView.

(** ** views.py: the pages of the read-only views *)

(** [queryset.select_related('author')] on comments: every comment comes
    with the row of its author (an inner join on a column that is not
    null). *)
Definition select_related_author (db : DB) (qs : list (nat * Comment.t))
    : list (nat * Comment.t * User.t) :=
  omap (λ row : nat * Comment.t,
          author ← User_objects db !! Comment.author row.2;
          Some (row, author)) qs.

(** [PostDetailView.get_context_data]: [self.object.comments] is the related
    manager, the comments of that post.  The order in which they come is
    the model's and is not fixed here. *)
Definition PostDetailView_get_context_data (db : DB) (object : nat * Post.t)
    : list (nat * Comment.t * User.t) :=
  select_related_author db
    (qs_filter Comment.holds [Comment.post_id_exact object.1]
       (objects_all (Comment_objects db))).

(** [DetailView.get]: the object, then the context. *)
Definition PostDetailView_get (db : DB) (user : request_user) (post_id : nat)
    : result (nat * Post.t * list (nat * Comment.t * User.t)) :=
  object ← PostDetailView.get_object db user post_id;
  Ok (object, PostDetailView_get_context_data db object).

(** [ListView.get]: the queryset, then the page of it the request asks for
    ([number] is the [page] parameter, one when there is none). *)
Definition PostListView_get (db : DB) (now : Z) (number : nat)
    : result (list (nat * Post.t * nat)) :=
  paginate_queryset paginate_by number (PostListView.get_queryset db now).

(** [CategoryPostsListView.get_context_data] adds the category, resolved a
    second time, to the page. *)
Definition CategoryPostsListView_get (db : DB) (now : Z)
    (category_slug : string) (number : nat)
    : result (nat * Category.t * list (nat * Post.t * nat)) :=
  object_list ← CategoryPostsListView.get_queryset db now category_slug;
  page ← paginate_queryset paginate_by number object_list;
  category ← CategoryPostsListView.get_category db category_slug;
  Ok (category, page).

(** [UserDetailView.get_context_data] adds the profile, the user resolved a
    second time, to the page. *)
Definition UserDetailView_get (db : DB) (now : Z) (user : request_user)
    (username : string) (number : nat)
    : result (nat * User.t * list (nat * Post.t * nat)) :=
  object_list ← UserDetailView.get_queryset db now user username;
  page ← paginate_queryset paginate_by number object_list;
  profile ← get_object_or_404 User.holds (User_objects db)
               [User.username_exact username];
  Ok (profile, page).

(** ** views.py: creating a post, editing the profile *)

(** The in-memory post a creation form works on.  Before the first save the
    references and the publish time may be unset. *)
Module PostDraft.
Record t : Type := mk
  { title : string; text : string; pub_date : option Z; is_published : bool;
    author : option nat; category : option nat; location : option nat }.

Definition set_author (i : t) (user_pk : nat) : t :=
  {| title := title i; text := text i; pub_date := pub_date i;
     is_published := is_published i; author := Some user_pk;
     category := category i; location := location i |}.

(** The row a draft is written as; a column left unset violates its
    NOT NULL constraint. *)
Definition to_row (i : t) : result Post.t :=
  match pub_date i, author i, category i, location i with
  | Some d, Some a, Some c, Some l =>
      Ok {| Post.title := title i; Post.text := text i; Post.pub_date := d;
            Post.is_published := is_published i; Post.author := a;
            Post.category := c; Post.location := l |}
  | _, _, _, _ => Raise IntegrityError
  end.
End PostDraft.

(** [post.save()] of a new post: inserted under a key the table does not
    use yet. *)
Definition insert_Post (i : PostDraft.t) : view (nat * Post.t) := λ db,
  match PostDraft.to_row i with
  | Raise e => (Raise e, db)
  | Ok row =>
      let k := fresh (dom (Post_objects db)) in
      (Ok (k, row),
       {| User_objects := User_objects db;
          Category_objects := Category_objects db;
          Location_objects := Location_objects db;
          Post_objects := <[k := row]> (Post_objects db);
          Comment_objects := Comment_objects db |})
  end.

Definition save_User (pk : nat) (row : User.t) : view unit := λ db,
  (Ok (),
   {| User_objects := <[pk := row]> (User_objects db);
      Category_objects := Category_objects db;
      Location_objects := Location_objects db;
      Post_objects := Post_objects db;
      Comment_objects := Comment_objects db |}).

(** [PostCreateView].  [new] is [Post()], the blank instance with the
    defaults that [blog/models.py] declares. *)
Module PostCreateView.
Definition template_name : string := "blog/create.html".

Definition get_success_url (object : nat * Post.t) : view url :=
  author ← query (λ db, related (User_objects db) (Post.author object.2));
  mret (blog_profile (User.username author.2)).

Definition form_valid (request : HttpRequest) (instance : PostDraft.t)
    : view HttpResponse :=
  match user request with
  | AnonymousUser => query (λ _, Raise ValueError)
  | Authenticated pk =>
      let instance := PostDraft.set_author instance pk in
      object ← insert_Post instance;
      success_url ← get_success_url object;
      mret (HttpResponseRedirect success_url)
  end.

Definition get : view HttpResponse :=
  mret (TemplateResponse template_name).

Definition post (PostForm : ModelForm PostDraft.t) (new : PostDraft.t)
    (request : HttpRequest) : view HttpResponse :=
  match PostForm (POST_data request) new with
  | Some instance => form_valid request instance
  | None => mret (TemplateResponse template_name)
  end.

Definition dispatch (PostForm : ModelForm PostDraft.t) (new : PostDraft.t)
    (request : HttpRequest) : view HttpResponse :=
  LoginRequiredMixin.dispatch request
    (View_dispatch request (ProcessFormView get (post PostForm new request))).
End PostCreateView.

(** [EditProfileView].  Its form has the four fields of the user row;
    what it accepts is the form layer's and is an argument.  The username
    of [request.user] is read from the user's row; the anonymous user has
    the empty username. *)
Module EditProfileView.
Definition template_name : string := "blog/user.html".

Definition get_object (request : HttpRequest) : view (nat * User.t) :=
  match user request with
  | AnonymousUser =>
      query (λ db, get_object_or_404 User.holds (User_objects db)
                     [User.username_exact EmptyString])
  | Authenticated pk =>
      me ← query (λ db, related (User_objects db) pk);
      query (λ db, get_object_or_404 User.holds (User_objects db)
                     [User.username_exact (User.username me.2)])
  end.

Definition get_success_url (object : nat * User.t) : url :=
  blog_profile (User.username object.2).

Definition get (request : HttpRequest) : view HttpResponse :=
  _ ← get_object request;
  mret (TemplateResponse template_name).

Definition post (EditProfileForm : ModelForm User.t) (request : HttpRequest)
    : view HttpResponse :=
  object ← get_object request;
  match EditProfileForm (POST_data request) object.2 with
  | Some row =>
      _ ← save_User object.1 row;
      mret (HttpResponseRedirect (get_success_url (object.1, row)))
  | None => mret (TemplateResponse template_name)
  end.

Definition dispatch (EditProfileForm : ModelForm User.t)
    (request : HttpRequest) : view HttpResponse :=
  LoginRequiredMixin.dispatch request
    (View_dispatch request
       (ProcessFormView (get request) (post EditProfileForm request))).
End EditProfileView.

(** The database with one table changed, to say what a view wrote. *)
Definition with_User_objects (f : gmap nat User.t → gmap nat User.t)
    (db : DB) : DB :=
  {| User_objects := f (User_objects db);
     Category_objects := Category_objects db;
     Location_objects := Location_objects db;
     Post_objects := Post_objects db;
     Comment_objects := Comment_objects db |}.

Definition with_Post_objects (f : gmap nat Post.t → gmap nat Post.t)
    (db : DB) : DB :=
  {| User_objects := User_objects db;
     Category_objects := Category_objects db;
     Location_objects := Location_objects db;
     Post_objects := f (Post_objects db);
     Comment_objects := Comment_objects db |}.

Definition with_Comment_objects
    (f : gmap nat Comment.t → gmap nat Comment.t) (db : DB) : DB :=
  {| User_objects := User_objects db;
     Category_objects := Category_objects db;
     Location_objects := Location_objects db;
     Post_objects := Post_objects db;
     Comment_objects := f (Comment_objects db) |}.

(** The methods whose handlers write: [post], [put] and [delete]. *)
Definition writes (m : http_method) : bool :=
  match m with
  | POST | PUT | DELETE => true
  | _ => false
  end.

(** What a stored row, if any, adds to the comment count of a post. *)
Definition counts_for (row : option Comment.t) (post_pk : nat) : nat :=
  match row with
  | Some c => if bool_decide (Comment.post c = post_pk) then 1%nat else 0%nat
  | None => 0
  end.

(** The foreign keys of the schema: every reference of a stored post or
    comment names a stored row.  The database enforces this on every write;
    the views rely on it when they follow a reference. *)
Definition referential_integrity (db : DB) : bool :=
  forallb (λ row : nat * Post.t,
             bool_decide (is_Some (User_objects db !! Post.author row.2))
             && bool_decide (is_Some (Category_objects db !! Post.category row.2))
             && bool_decide (is_Some (Location_objects db !! Post.location row.2)))
          (objects_all (Post_objects db))
  && forallb (λ row : nat * Comment.t,
                bool_decide (is_Some (User_objects db !! Comment.author row.2))
                && bool_decide (is_Some (Post_objects db !! Comment.post row.2)))
             (objects_all (Comment_objects db)).

(** ** A small blog, for the examples

    Two users, ann (1) and bob (2); a published and an unpublished category
    and location; four posts and two comments. *)
Module Blog.
Definition ann : User.t := User.mk "ann" "ann@example.org" "Ann" "A".
Definition bob : User.t := User.mk "bob" "bob@example.org" "Bob" "B".

(** Published everywhere and in the past. *)
Definition post1 : Post.t := Post.mk "Louvre" "..." 10 true 1 1 1.
(** Published, but at an unpublished location. *)
Definition post2 : Post.t := Post.mk "Secret spot" "..." 20 true 1 1 2.
(** Published everywhere, scheduled for later. *)
Definition post3 : Post.t := Post.mk "Next week" "..." 30 true 2 1 1.
(** A draft of bob. *)
Definition post4 : Post.t := Post.mk "Draft" "..." 5 false 2 1 1.

Definition comment1 : Comment.t := Comment.mk "Nice" 2 1.
Definition comment2 : Comment.t := Comment.mk "Thanks" 1 1.

Definition db : DB :=
  {| User_objects := {[ 1%nat := ann; 2%nat := bob ]};
     Category_objects :=
       {[ 1%nat := Category.mk "Travel" "travel" true;
          2%nat := Category.mk "Hidden" "hidden" false ]};
     Location_objects :=
       {[ 1%nat := Location.mk "Paris" true;
          2%nat := Location.mk "Nowhere" false ]};
     Post_objects :=
       {[ 1%nat := post1; 2%nat := post2; 3%nat := post3; 4%nat := post4 ]};
     Comment_objects := {[ 1%nat := comment1; 2%nat := comment2 ]} |}.

Definition now : Z := 25.

(** A comment form with the one field [text]. *)
Definition CommentForm : ModelForm Comment.instance := λ data instance,
  match data with
  | [("text", t)] =>
      Some {| Comment.instance_text := t;
              Comment.instance_author := Comment.instance_author instance;
              Comment.instance_post := Comment.instance_post instance |}
  | _ => None
  end.

(** A careless comment form that also takes [author] and [post] from the
    body, here fixed to user 1 and post 1 whatever was sent. *)
Definition SpoofableCommentForm : ModelForm Comment.instance :=
  λ data instance,
  match data with
  | [("text", t)] =>
      Some {| Comment.instance_text := t;
              Comment.instance_author := Some 1%nat;
              Comment.instance_post := Some 1%nat |}
  | _ => None
  end.

(** A post form with the one field [title]. *)
Definition PostForm : ModelForm Post.t := λ data instance,
  match data with
  | [("title", t)] =>
      Some {| Post.title := t; Post.text := Post.text instance;
              Post.pub_date := Post.pub_date instance;
              Post.is_published := Post.is_published instance;
              Post.author := Post.author instance;
              Post.category := Post.category instance;
              Post.location := Post.location instance |}
  | _ => None
  end.

(** [on_delete=CASCADE] *)
Definition CASCADE (post_pk : nat) (comments : gmap nat Comment.t)
    : gmap nat Comment.t :=
  filter (λ kc : nat * Comment.t, Comment.post kc.2 ≠ post_pk) comments.
End Blog.

(** More of the small blog: forms for the views above. *)
Module BlogForms.
(** [Post()]: nothing set, published by default. *)
Definition new_post : PostDraft.t :=
  PostDraft.mk EmptyString EmptyString None true None None None.

(** A post creation form with the field [title]; the other columns are
    filled in with fixed values, and the author with user 1, which the view
    is to overwrite. *)
Definition PostForm : ModelForm PostDraft.t := λ data instance,
  match data with
  | [("title", t)] =>
      Some (PostDraft.mk t "..." (Some 40) (PostDraft.is_published instance)
              (Some 1%nat) (Some 1%nat) (Some 1%nat))
  | _ => None
  end.

(** A profile form that takes the new username. *)
Definition EditProfileForm : ModelForm User.t := λ data instance,
  match data with
  | [("username", n)] =>
      Some (User.mk n (User.email instance) (User.first_name instance)
              (User.last_name instance))
  | _ => None
  end.
End BlogForms.

(** ** What the spec says, in its own words *)

(** The spec's visibility predicate:
    published ∧ category.published ∧ location.published ∧ publish_time ≤ now. *)
Definition spec_publicly_visible (db : DB) (now : Z) (p : Post.t) : Prop :=
  Post.is_published p = true
  ∧ (∃ c, Category_objects db !! Post.category p = Some c
          ∧ Category.is_published c = true)
  ∧ (∃ l, Location_objects db !! Post.location p = Some l
          ∧ Location.is_published l = true)
  ∧ Post.pub_date p ≤ now.

(** The spec's derived comment count: how many stored comments belong to
    the post. *)
Definition spec_comment_count (db : DB) (post_pk : nat) : nat :=
  size (filter (λ kc : nat * Comment.t, Comment.post kc.2 = post_pk)
          (Comment_objects db)).

(** Descending publish-time order of an annotated listing. *)
Definition newest_first : relation (nat * Post.t * nat) :=
  λ x y, Post.pub_date y.1.2 ≤ Post.pub_date x.1.2.

(** ** Lemmas on the mapper *)

Section orm_lemmas.
Context {A : Type}.
Implicit Types (table : gmap nat A) (row : nat * A).

Lemma NoDup_singleton_elems {B} (l : list B) (a : B) :
  NoDup l → (∀ x, x ∈ l ↔ x = a) → l = [a].
Proof.
  intros Hnd Hel. apply Permutation_singleton_r.
  apply NoDup_Permutation; [done | apply NoDup_singleton |].
  intros x. rewrite Hel. by rewrite list_elem_of_singleton.
Qed.

Lemma elem_of_qs_filter {R L} (holds : R → L → bool) lookups (qs : list R) x :
  x ∈ qs_filter holds lookups qs ↔
  (∀ l, l ∈ lookups → holds x l = true) ∧ x ∈ qs.
Proof.
  unfold qs_filter. rewrite list_elem_of_filter.
  rewrite forallb_True, Forall_forall.
  split; intros [H ?]; split; try done; intros l Hl.
  - by apply Is_true_true, H.
  - by apply Is_true_true, H.
Qed.

Lemma NoDup_qs_filter {R L} (holds : R → L → bool) lookups (qs : list R) :
  NoDup qs → NoDup (qs_filter holds lookups qs).
Proof. apply NoDup_filter. Qed.

(** A get that selects on a condition only one row meets returns it. *)
Lemma get_object_or_404_unique {L} (holds : nat * A → L → bool)
    table lookups row :
  (∀ x, x ∈ objects_all table →
        (∀ l, l ∈ lookups → holds x l = true) ↔ x = row) →
  row ∈ objects_all table →
  get_object_or_404 holds table lookups = Ok row.
Proof.
  intros Huniq Hin. unfold get_object_or_404.
  rewrite (NoDup_singleton_elems (qs_filter holds lookups (objects_all table)) row).
  - done.
  - apply NoDup_qs_filter, NoDup_map_to_list.
  - intros x. rewrite elem_of_qs_filter. split.
    + intros [Hl Hx]. by apply (Huniq x Hx).
    + intros ->. split; [|done]. by apply (Huniq row Hin).
Qed.

(** A get that no row meets is a 404. *)
Lemma get_object_or_404_none {L} (holds : nat * A → L → bool)
    table lookups :
  (∀ x, x ∈ objects_all table →
        ¬ (∀ l, l ∈ lookups → holds x l = true)) →
  get_object_or_404 holds table lookups = Raise Http404.
Proof.
  intros Hnone. unfold get_object_or_404.
  rewrite (elem_of_nil_inv (qs_filter holds lookups (objects_all table))).
  - done.
  - intros x. rewrite elem_of_qs_filter. intros [Hl Hx]. by apply (Hnone x).
Qed.

Lemma elem_of_objects_all table k v :
  (k, v) ∈ objects_all table ↔ table !! k = Some v.
Proof. apply elem_of_map_to_list. Qed.

Lemma lookups_hold {R L} (holds : R → L → bool) lookups (x : R) :
  (∀ l, l ∈ lookups → holds x l = true) ↔ forallb (holds x) lookups = true.
Proof.
  rewrite forallb_forall.
  split; intros H l Hl; apply H; by apply list_elem_of_In.
Qed.

(** A get whose lookups fix the primary key is a lookup in the table,
    followed by a test of the further lookups. *)
Lemma get_object_or_404_pk {L} (holds : nat * A → L → bool)
    table lookups (k : nat) (also : A → bool) :
  (∀ row, (∀ l, l ∈ lookups → holds row l = true) ↔
          row.1 = k ∧ also row.2 = true) →
  get_object_or_404 holds table lookups =
  match table !! k with
  | Some v => if also v then Ok (k, v) else Raise Http404
  | None => Raise Http404
  end.
Proof.
  intros Hspec.
  destruct (table !! k) as [v|] eqn:Hk; [destruct (also v) eqn:Hv|].
  - apply get_object_or_404_unique; [|by apply elem_of_objects_all].
    intros [k' v'] Hx. apply elem_of_objects_all in Hx.
    rewrite Hspec. simpl. split.
    + intros [-> _]. congruence.
    + by intros [= -> ->].
  - apply get_object_or_404_none. intros [k' v'] Hx Hl.
    apply elem_of_objects_all in Hx. apply Hspec in Hl as [Hk' Hv'].
    simpl in *. congruence.
  - apply get_object_or_404_none. intros [k' v'] Hx Hl.
    apply elem_of_objects_all in Hx. apply Hspec in Hl as [Hk' _].
    simpl in *. congruence.
Qed.
End orm_lemmas.

(** What a list of lookups asks of a row, as a conjunction. *)
Ltac lookups :=
  rewrite lookups_hold; simpl;
  rewrite ?andb_true_iff, ?bool_decide_eq_true.

(** Getting by primary key is a lookup in the table. *)
Lemma get_Post_by_pk db post_id :
  get_object_or_404 (Post_holds db) (Post_objects db) [pk_exact post_id] =
  match Post_objects db !! post_id with
  | Some p => Ok (post_id, p)
  | None => Raise Http404
  end.
Proof.
  apply (get_object_or_404_pk _ _ _ post_id (λ _, true)).
  intros row. lookups. tauto.
Qed.

(** ** Ordering and annotation *)

#[global] Instance pub_date_desc_total {R} (key : R → Z) :
  Total (pub_date_desc key).
Proof. intros x y. unfold pub_date_desc. lia. Qed.

#[global] Instance pub_date_desc_trans {R} (key : R → Z) :
  Transitive (pub_date_desc key).
Proof. intros x y z. unfold pub_date_desc. lia. Qed.

Lemma elem_of_order_by_desc {R} (key : R → Z) (qs : list R) x :
  x ∈ order_by_desc key qs ↔ x ∈ qs.
Proof. unfold order_by_desc. by rewrite merge_sort_Permutation. Qed.

Lemma order_by_desc_sorted {R} (key : R → Z) (qs : list R) :
  StronglySorted (pub_date_desc key) (order_by_desc key qs).
Proof. apply StronglySorted_merge_sort; apply _. Qed.

Lemma order_by_desc_NoDup {R} (key : R → Z) (qs : list R) :
  NoDup qs → NoDup (order_by_desc key qs).
Proof. unfold order_by_desc. by rewrite merge_sort_Permutation. Qed.

Lemma StronglySorted_qs_filter {R L} (rel : relation R)
    (holds : R → L → bool) lookups (qs : list R) :
  StronglySorted rel qs → StronglySorted rel (qs_filter holds lookups qs).
Proof.
  induction 1 as [|x l Hl IH Hx]; unfold qs_filter; simpl.
  - constructor.
  - rewrite filter_cons. case_decide; [|exact IH].
    constructor; [exact IH|].
    apply Forall_forall. intros y Hy.
    apply list_elem_of_filter in Hy as [_ Hy].
    by apply (proj1 (Forall_forall _ _) Hx).
Qed.

Lemma elem_of_annotate_comment_count db qs pk p n :
  (pk, p, n) ∈ annotate_comment_count db qs ↔
  (pk, p) ∈ qs ∧ n = Count_comments db pk.
Proof.
  unfold annotate_comment_count. rewrite list_elem_of_fmap. split.
  - intros ([k v] & [= -> -> ->] & Hin). done.
  - intros [Hin ->]. by exists (pk, p).
Qed.

Lemma annotate_comment_count_keys db qs :
  (annotate_comment_count db qs).*1 = qs.
Proof.
  unfold annotate_comment_count. rewrite <- list_fmap_compose.
  by rewrite <- (list_fmap_id qs) at 2.
Qed.

(** The count attached by the query is the spec's count. *)
Lemma Count_comments_spec db post_pk :
  Count_comments db post_pk = spec_comment_count db post_pk.
Proof.
  unfold Count_comments, spec_comment_count.
  rewrite <- length_map_to_list. apply Permutation_length.
  apply NoDup_Permutation.
  - apply NoDup_qs_filter, NoDup_map_to_list.
  - apply NoDup_map_to_list.
  - intros [k c].
    rewrite elem_of_qs_filter, elem_of_objects_all, elem_of_map_to_list,
      map_lookup_filter_Some.
    lookups. simpl. tauto.
Qed.

(** The four lookups of the public listing are the spec's predicate. *)
Lemma public_lookups_spec db now (row : nat * Post.t) :
  (∀ l, l ∈ [is_published_exact true; category__is_published_exact true;
             location__is_published_exact true; pub_date__lte now] →
        Post_holds db row l = true) ↔
  spec_publicly_visible db now row.2.
Proof.
  unfold spec_publicly_visible. lookups.
  destruct (Category_objects db !! Post.category row.2) as [c|];
    destruct (Location_objects db !! Post.location row.2) as [l|];
    rewrite ?bool_decide_eq_true;
    (split;
     [intros (H1 & H2 & H3 & H4 & _); try discriminate; eauto 10
     |intros (H1 & (c' & Hc' & Hc) & (l' & Hl' & Hl) & H4);
      try discriminate; injection Hc' as <-; injection Hl' as <-; auto]).
Qed.

(** The pages hold the rows of the queryset, and nothing else. *)
Lemma elem_of_paginate_queryset {R} (queryset : list R) x :
  x ∈ queryset ↔
  ∃ number page,
    paginate_queryset paginate_by number queryset = Ok page ∧ x ∈ page.
Proof.
  unfold paginate_queryset, paginate_by, num_pages. split.
  - intros Hin. apply list_elem_of_lookup in Hin as [i Hi].
    pose proof (lookup_lt_Some _ _ _ Hi) as Hlt.
    exists (S (i / 10)), (take 10 (drop (i / 10 * 10) queryset)). split.
    + rewrite (bool_decide_true (1 ≤ S (i / 10))%nat) by lia.
      rewrite (bool_decide_false (length queryset = 0%nat)) by lia.
      rewrite bool_decide_true.
      * simpl. by rewrite Nat.sub_0_r.
      * pose proof (Nat.div_mod_eq i 10).
        pose proof (Nat.mod_upper_bound i 10).
        pose proof (Nat.div_mod_eq (length queryset + 10 - 1) 10).
        pose proof (Nat.mod_upper_bound (length queryset + 10 - 1) 10).
        lia.
    + apply list_elem_of_lookup. exists (i mod 10)%nat.
      pose proof (Nat.div_mod_eq i 10).
      pose proof (Nat.mod_upper_bound i 10).
      rewrite lookup_take_lt by lia. rewrite lookup_drop.
      rewrite <- Hi. f_equal. lia.
  - intros (number & page & Hpage & Hin).
    destruct (_ && _); [|discriminate]. injection Hpage as <-.
    apply list_elem_of_lookup in Hin as [i Hi].
    apply lookup_take_Some in Hi as [Hi _]. rewrite lookup_drop in Hi.
    apply list_elem_of_lookup. eauto.
Qed.

(** ** The public listing *)

Lemma elem_of_PostListView_get_queryset db now pk p n :
  (pk, p, n) ∈ PostListView.get_queryset db now ↔
  Post_objects db !! pk = Some p ∧ spec_publicly_visible db now p
  ∧ n = Count_comments db pk.
Proof.
  unfold PostListView.get_queryset.
  rewrite elem_of_annotate_comment_count, elem_of_order_by_desc,
    elem_of_qs_filter, elem_of_objects_all.
  rewrite (public_lookups_spec db now (pk, p)). simpl. tauto.
Qed.

(** C1: a stored post is in the listing of the main page exactly when it is
    published, its category and its location are published and its publish
    time is not after now; the listing is in descending publish-time order,
    holds no post twice, and every entry carries the number of comments of
    its post. *)
Theorem PostListView_get_queryset_spec (db : DB) (now : Z) :
  let listing := PostListView.get_queryset db now in
  (∀ pk p, (∃ n, (pk, p, n) ∈ listing) ↔
           Post_objects db !! pk = Some p ∧ spec_publicly_visible db now p)
  ∧ StronglySorted newest_first listing
  ∧ NoDup listing.*1.*1
  ∧ (∀ pk p n, (pk, p, n) ∈ listing → n = spec_comment_count db pk).
Proof.
  intros listing. subst listing. split; [|split; [|split]].
  - intros pk p. split.
    + intros (n & Hin).
      apply elem_of_PostListView_get_queryset in Hin. tauto.
    + intros [Hp Hvis]. exists (Count_comments db pk).
      by apply elem_of_PostListView_get_queryset.
  - unfold PostListView.get_queryset, annotate_comment_count.
    eapply StronglySorted_fmap; [|apply order_by_desc_sorted].
    intros x y Hxy. exact Hxy.
  - unfold PostListView.get_queryset.
    rewrite annotate_comment_count_keys.
    apply NoDup_fmap_fst.
    + intros k v1 v2 H1 H2.
      apply elem_of_order_by_desc, elem_of_qs_filter in H1 as [_ H1].
      apply elem_of_order_by_desc, elem_of_qs_filter in H2 as [_ H2].
      apply elem_of_objects_all in H1, H2. congruence.
    + apply order_by_desc_NoDup, NoDup_qs_filter, NoDup_map_to_list.
  - intros pk p n Hin.
    apply elem_of_PostListView_get_queryset in Hin as (_ & _ & ->).
    apply Count_comments_spec.
Qed.

(** ** Getting one row *)

Lemma get_Comment_by_pk db comment_id :
  get_object_or_404 Comment.holds (Comment_objects db)
    [Comment.pk_exact comment_id] =
  match Comment_objects db !! comment_id with
  | Some c => Ok (comment_id, c)
  | None => Raise Http404
  end.
Proof.
  apply (get_object_or_404_pk _ _ _ comment_id (λ _, true)).
  intros row. lookups. tauto.
Qed.

Lemma get_Comment_by_pk_and_post db post_id comment_id :
  get_object_or_404 Comment.holds (Comment_objects db)
    [Comment.pk_exact comment_id; Comment.post_id_exact post_id] =
  match Comment_objects db !! comment_id with
  | Some c =>
      if bool_decide (Comment.post c = post_id)
      then Ok (comment_id, c) else Raise Http404
  | None => Raise Http404
  end.
Proof.
  apply (get_object_or_404_pk _ _ _ comment_id
           (λ c, bool_decide (Comment.post c = post_id))).
  intros row. lookups. tauto.
Qed.

(** A username that names one stored user resolves to that user. *)
Lemma get_User_by_username db username w W :
  User_objects db !! w = Some W →
  User.username W = username →
  (∀ k v, User_objects db !! k = Some v → User.username v = username → k = w) →
  get_object_or_404 User.holds (User_objects db)
    [User.username_exact username] = Ok (w, W).
Proof.
  intros HW Hname Huniq.
  apply get_object_or_404_unique; [|by apply elem_of_objects_all].
  intros [k v] Hx. apply elem_of_objects_all in Hx. lookups. split.
  - intros [Hv _]. assert (k = w) as -> by eauto. congruence.
  - by intros [= -> ->].
Qed.

Lemma referential_integrity_Post db pk p :
  referential_integrity db = true →
  Post_objects db !! pk = Some p →
  is_Some (User_objects db !! Post.author p)
  ∧ is_Some (Category_objects db !! Post.category p)
  ∧ is_Some (Location_objects db !! Post.location p).
Proof.
  unfold referential_integrity. intros H Hp.
  apply andb_true_iff in H as [H _].
  rewrite forallb_forall in H.
  specialize (H (pk, p)). simpl in H.
  rewrite !andb_true_iff, !bool_decide_eq_true in H.
  apply elem_of_objects_all, list_elem_of_In in Hp.
  destruct (H Hp) as [[? ?] ?]. auto.
Qed.

Lemma referential_integrity_Comment db pk c :
  referential_integrity db = true →
  Comment_objects db !! pk = Some c →
  is_Some (User_objects db !! Comment.author c)
  ∧ is_Some (Post_objects db !! Comment.post c).
Proof.
  unfold referential_integrity. intros H Hc.
  apply andb_true_iff in H as [_ H].
  rewrite forallb_forall in H.
  specialize (H (pk, c)). simpl in H.
  rewrite !andb_true_iff, !bool_decide_eq_true in H.
  apply elem_of_objects_all, list_elem_of_In in Hc.
  destruct (H Hc) as [? ?]. auto.
Qed.

(** ** The profile listing *)

(** C8: the profile listing of a stored user W holds exactly W's posts,
    each once, with its comment count and in descending publish-time
    order; for a viewer other than W (the anonymous one included) only the
    posts whose publish time is not after now, whatever their published
    flags; for W all of them. *)
Theorem UserDetailView_get_queryset_spec
    (db : DB) (now : Z) (viewer : request_user) (username : string)
    (w : nat) (W : User.t) :
  User_objects db !! w = Some W →
  User.username W = username →
  (∀ k v, User_objects db !! k = Some v → User.username v = username → k = w) →
  ∃ listing,
    UserDetailView.get_queryset db now viewer username = Ok listing
    ∧ (∀ pk p n, (pk, p, n) ∈ listing ↔
         Post_objects db !! pk = Some p ∧ Post.author p = w
         ∧ (viewer ≠ Authenticated w → Post.pub_date p ≤ now)
         ∧ n = spec_comment_count db pk)
    ∧ StronglySorted newest_first listing
    ∧ NoDup listing.*1.*1.
Proof.
  intros HW Hname Huniq. unfold UserDetailView.get_queryset.
  rewrite (get_User_by_username db username w W HW Hname Huniq). simpl.
  set (own := qs_filter (Post_holds db) [author_exact w]
                (objects_all (Post_objects db))).
  set (key := λ row : nat * Post.t * nat, Post.pub_date row.1.2).
  set (queryset := order_by_desc key (annotate_comment_count db own)).
  assert (Hown : ∀ pk p, (pk, p) ∈ own ↔
            Post_objects db !! pk = Some p ∧ Post.author p = w).
  { intros pk p. unfold own.
    rewrite elem_of_qs_filter, elem_of_objects_all. lookups. tauto. }
  assert (Hall : ∀ pk p n, (pk, p, n) ∈ queryset ↔
            Post_objects db !! pk = Some p ∧ Post.author p = w
            ∧ n = spec_comment_count db pk).
  { intros pk p n. unfold queryset.
    rewrite elem_of_order_by_desc, elem_of_annotate_comment_count, Hown,
      Count_comments_spec. tauto. }
  assert (Hsorted : StronglySorted newest_first queryset)
    by apply order_by_desc_sorted.
  assert (Hnodup : NoDup queryset.*1.*1).
  { unfold queryset, order_by_desc. rewrite merge_sort_Permutation.
    rewrite annotate_comment_count_keys.
    apply NoDup_fmap_fst; [|apply NoDup_qs_filter, NoDup_map_to_list].
    intros k v1 v2 H1 H2.
    apply Hown in H1. apply Hown in H2. destruct H1, H2. congruence. }
  destruct (decide (viewer = Authenticated w)) as [->|Hother].
  - (* the owner: the queryset as it is *)
    simpl. rewrite bool_decide_true by done. simpl.
    exists queryset. split; [done|]. split; [|by split].
    intros pk p n. rewrite Hall. tauto.
  - (* anyone else: the posts that are due *)
    assert (user_eq w viewer = false) as ->.
    { destruct viewer as [|u]; [done|]. simpl.
      apply bool_decide_eq_false. congruence. }
    simpl. eexists. split; [done|]. split; [|split].
    + intros pk p n. rewrite elem_of_qs_filter, Hall. lookups. simpl. tauto.
    + by apply StronglySorted_qs_filter.
    + eapply sublist_NoDup; [exact Hnodup|].
      do 2 apply fmap_sublist. apply sublist_filter.
Qed.

(** ** The ownership guard *)

Ltac unfold_view :=
  unfold mbind, view_bind, mret, view_ret, query, related; simpl.

Lemma user_eq_other (pk u : nat) :
  pk ≠ u → user_eq pk (Authenticated u) = false.
Proof. intros. simpl. by apply bool_decide_eq_false. Qed.

Section guards.
Context (db : DB) (request : HttpRequest).
Hypothesis Hfk : referential_integrity db = true.

(** The guard of a post view, for whoever is not the author: the post is
    fetched, nothing is written, and the answer is the redirect. *)
Lemma AuthorPostMixin_dispatch_not_author post_id p super_dispatch :
  Post_objects db !! post_id = Some p →
  user_eq (Post.author p) (user request) = false →
  AuthorPostMixin.dispatch
    (query (λ db, get_object_or_404 (Post_holds db) (Post_objects db)
                    [pk_exact post_id]))
    request super_dispatch db =
  (Ok (HttpResponseRedirect (blog_post_detail post_id)), db).
Proof.
  intros Hp Hne. unfold AuthorPostMixin.dispatch. unfold_view.
  rewrite get_Post_by_pk, Hp. simpl.
  destruct (referential_integrity_Post db post_id p Hfk Hp) as [[a Ha] _].
  rewrite Ha. simpl. by rewrite Hne.
Qed.

(** The guard of a comment view, for whoever is not the author. *)
Lemma AuthorCommentMixin_dispatch_not_author
    (get_object : view (nat * Comment.t)) comment_id c super_dispatch :
  get_object db = (Ok (comment_id, c), db) →
  Comment_objects db !! comment_id = Some c →
  user_eq (Comment.author c) (user request) = false →
  AuthorCommentMixin.dispatch get_object request super_dispatch db =
  (Ok (HttpResponseRedirect (blog_post_detail (Comment.post c))), db).
Proof.
  intros Hget Hc Hne. unfold AuthorCommentMixin.dispatch. unfold_view.
  rewrite Hget. simpl.
  destruct (referential_integrity_Comment db comment_id c Hfk Hc)
    as [[a Ha] [p Hp]].
  rewrite Ha. simpl. rewrite Hne. simpl. by rewrite Hp.
Qed.
End guards.

Lemma CommentEditView_get_object_found db comment_id c :
  Comment_objects db !! comment_id = Some c →
  CommentEditView.get_object comment_id db = (Ok (comment_id, c), db).
Proof.
  intros Hc. unfold CommentEditView.get_object, query.
  by rewrite get_Comment_by_pk, Hc.
Qed.

Lemma CommentDeleteView_get_object_found db comment_id c :
  Comment_objects db !! comment_id = Some c →
  CommentDeleteView.get_object (Comment.post c) comment_id db =
  (Ok (comment_id, c), db).
Proof.
  intros Hc. unfold CommentDeleteView.get_object, query.
  rewrite get_Comment_by_pk_and_post, Hc. by rewrite bool_decide_true.
Qed.

(** A delete routed under a post the comment does not belong to finds
    nothing, whoever asks. *)
Lemma CommentDeleteView_dispatch_route_mismatch db request post_id comment_id c :
  Comment_objects db !! comment_id = Some c →
  Comment.post c ≠ post_id →
  CommentDeleteView.dispatch request post_id comment_id db =
  (Raise Http404, db).
Proof.
  intros Hc Hne.
  unfold CommentDeleteView.dispatch, AuthorCommentMixin.dispatch,
    CommentDeleteView.get_object.
  unfold_view. rewrite get_Comment_by_pk_and_post, Hc.
  by rewrite bool_decide_false.
Qed.

(** C4: for an authenticated user who is not the author, editing or
    deleting a post, and editing or deleting a comment, writes nothing and
    answers with the redirect to the detail page of the post, respectively
    of the post the comment is stored under; the answer is never an error.
    The comment is addressed by its identifier; its delete route names the
    post the comment is stored under. *)
Theorem non_owner_mutation_redirects
    (PostForm : ModelForm Post.t) (CommentForm : ModelForm Comment.instance)
    (on_delete : nat → gmap nat Comment.t → gmap nat Comment.t)
    (db : DB) (request : HttpRequest) (u : nat) :
  referential_integrity db = true →
  user request = Authenticated u →
  (∀ post_id p,
     Post_objects db !! post_id = Some p → Post.author p ≠ u →
     PostEditView.dispatch PostForm request post_id db =
       (Ok (HttpResponseRedirect (blog_post_detail post_id)), db)
     ∧ PostDeleteView.dispatch on_delete request post_id db =
       (Ok (HttpResponseRedirect (blog_post_detail post_id)), db))
  ∧ (∀ comment_id c,
     Comment_objects db !! comment_id = Some c → Comment.author c ≠ u →
     (∀ post_id,
        CommentEditView.dispatch CommentForm request post_id comment_id db =
        (Ok (HttpResponseRedirect (blog_post_detail (Comment.post c))), db))
     ∧ CommentDeleteView.dispatch request (Comment.post c) comment_id db =
       (Ok (HttpResponseRedirect (blog_post_detail (Comment.post c))), db)).
Proof.
  intros Hfk Hu. split.
  - intros post_id p Hp Hne.
    apply user_eq_other in Hne. rewrite <- Hu in Hne.
    split; by apply AuthorPostMixin_dispatch_not_author with (p := p).
  - intros comment_id c Hc Hne.
    apply user_eq_other in Hne. rewrite <- Hu in Hne. split.
    + intros post_id. unfold CommentEditView.dispatch.
      apply AuthorCommentMixin_dispatch_not_author with (comment_id := comment_id);
        auto using CommentEditView_get_object_found.
    + unfold CommentDeleteView.dispatch.
      apply AuthorCommentMixin_dispatch_not_author with (comment_id := comment_id);
        auto using CommentDeleteView_get_object_found.
Qed.

(** C10: a comment edit by an authenticated user who is not the author
    resolves the comment by its identifier alone, whatever post the route
    names, and redirects to the detail page of the post the comment is
    stored under. *)
Theorem CommentEditView_non_owner_redirects_to_stored_post
    (CommentForm : ModelForm Comment.instance)
    (db : DB) (request : HttpRequest) (u post_id comment_id : nat)
    (c : Comment.t) :
  referential_integrity db = true →
  user request = Authenticated u →
  Comment_objects db !! comment_id = Some c →
  Comment.author c ≠ u →
  CommentEditView.get_object comment_id db = (Ok (comment_id, c), db)
  ∧ CommentEditView.dispatch CommentForm request post_id comment_id db =
    (Ok (HttpResponseRedirect (blog_post_detail (Comment.post c))), db).
Proof.
  intros Hfk Hu Hc Hne. split; [by apply CommentEditView_get_object_found|].
  apply user_eq_other in Hne. rewrite <- Hu in Hne.
  unfold CommentEditView.dispatch.
  apply AuthorCommentMixin_dispatch_not_author with (comment_id := comment_id);
    auto using CommentEditView_get_object_found.
Qed.

(** ** Creating a comment *)

(** C3: whatever the form makes of the submitted body, a comment that the
    creation view adds has the requesting, authenticated user as author and
    the post of the route as post, and the comments stored before are kept
    as they were; and a valid form sent by an authenticated user on the
    route of a stored post does add such a comment, under an unused key,
    and answers with the redirect to that post. *)
Theorem CommentCreateView_binds_author_and_post
    (CommentForm : ModelForm Comment.instance)
    (request : HttpRequest) (post_id : nat) (db : DB) :
  let out := CommentCreateView.dispatch CommentForm request post_id db in
  (∀ k c, Comment_objects out.2 !! k = Some c →
     Comment_objects db !! k = Some c
     ∨ (Comment_objects db !! k = None
        ∧ user request = Authenticated (Comment.author c)
        ∧ Comment.post c = post_id
        ∧ is_Some (Post_objects db !! post_id)))
  ∧ (∀ k c, Comment_objects db !! k = Some c →
            Comment_objects out.2 !! k = Some c)
  ∧ (∀ u instance,
       user request = Authenticated u →
       method request = POST →
       CommentForm (POST_data request) Comment.blank = Some instance →
       is_Some (Post_objects db !! post_id) →
       ∃ k, Comment_objects db !! k = None
            ∧ out.1 = Ok (HttpResponseRedirect (blog_post_detail post_id))
            ∧ Comment_objects out.2 =
              <[k := {| Comment.text := Comment.instance_text instance;
                        Comment.author := u;
                        Comment.post := post_id |}]> (Comment_objects db)).
Proof.
  intros out. subst out.
  unfold CommentCreateView.dispatch, LoginRequiredMixin.dispatch,
    View_dispatch, ProcessFormView, CommentCreateView.get,
    CommentCreateView.post, CommentCreateView.form_valid, save_Comment.
  destruct request as [[|u] [] data]; simpl;
    try (split; [by left|split; [done|by intros]]).
  all: destruct (CommentForm data Comment.blank) as [instance|]; simpl;
    [|split; [by left|split; [done|by intros]]].
  all: unfold_view; rewrite get_Post_by_pk.
  all: destruct (Post_objects db !! post_id) as [p|] eqn:Hp; simpl;
    [|split; [by left|split; [done|intros ? ? _ _ _ [? [=]]]]].
  all: set (k := fresh (dom (Comment_objects db))).
  all: assert (Hk : Comment_objects db !! k = None)
    by apply not_elem_of_dom, is_fresh.
  all: split; [|split].
  all: try (intros k' c; destruct (decide (k = k')) as [<-|Hne];
            [rewrite lookup_insert_eq; intros [= <-]; right; simpl; by eauto
            |rewrite lookup_insert_ne by done; by left]).
  all: try (intros k' c Hc; rewrite lookup_insert_ne; [done|congruence]).
  all: intros u' instance' [= <-] Hm [= <-] _;
    first [discriminate Hm | by exists k].
Qed.

(** An example with a form that would take author and post from the body:
    bob comments under post 3, and the stored comment is bob's, on post 3. *)
Lemma CommentCreateView_binds_author_and_post_witness :
  ∃ k, Comment_objects Blog.db !! k = None
       ∧ (CommentCreateView.dispatch Blog.SpoofableCommentForm
            (mkRequest (Authenticated 2) POST [("text", "Hello")]) 3 Blog.db).1
         = Ok (HttpResponseRedirect (blog_post_detail 3))
       ∧ Comment_objects
           (CommentCreateView.dispatch Blog.SpoofableCommentForm
              (mkRequest (Authenticated 2) POST [("text", "Hello")]) 3 Blog.db).2
         = <[k := Comment.mk "Hello" 2 3]> (Comment_objects Blog.db).
Proof.
  destruct (CommentCreateView_binds_author_and_post Blog.SpoofableCommentForm
              (mkRequest (Authenticated 2) POST [("text", "Hello")]) 3 Blog.db)
    as (_ & _ & H).
  apply (H 2%nat (Comment.mk_instance "Hello" (Some 1%nat) (Some 1%nat)));
    [reflexivity | reflexivity | reflexivity |].
  exists Blog.post3. vm_compute. reflexivity.
Defined.

(** ** Post detail *)

Lemma PostDetailView_get_object_missing db viewer post_id :
  Post_objects db !! post_id = None →
  PostDetailView.get_object db viewer post_id = Raise Http404.
Proof.
  intros Hp. unfold PostDetailView.get_object.
  by rewrite get_Post_by_pk, Hp.
Qed.

(** For a stored post and a viewer who is not its author, the detail view
    decides on the three published flags alone. *)
Lemma PostDetailView_get_object_not_author db viewer post_id p c l :
  Post_objects db !! post_id = Some p →
  is_Some (User_objects db !! Post.author p) →
  Category_objects db !! Post.category p = Some c →
  Location_objects db !! Post.location p = Some l →
  user_eq (Post.author p) viewer = false →
  PostDetailView.get_object db viewer post_id =
  if Post.is_published p && Category.is_published c && Location.is_published l
  then Ok (post_id, p) else Raise Http404.
Proof.
  intros Hp [a Ha] Hc Hl Hne. unfold PostDetailView.get_object.
  rewrite get_Post_by_pk, Hp. unfold related. simpl.
  rewrite Ha. simpl. rewrite Hne.
  destruct (Post.is_published p); [|done]. simpl.
  rewrite Hc. simpl. destruct (Category.is_published c); [|done]. simpl.
  rewrite Hl. simpl. by destruct (Location.is_published l).
Qed.

Lemma PostDetailView_get_object_author db post_id p :
  referential_integrity db = true →
  Post_objects db !! post_id = Some p →
  PostDetailView.get_object db (Authenticated (Post.author p)) post_id =
  Ok (post_id, p).
Proof.
  intros Hfk Hp. unfold PostDetailView.get_object.
  rewrite get_Post_by_pk, Hp. unfold related. simpl.
  destruct (referential_integrity_Post db post_id p Hfk Hp) as [[a Ha] _].
  rewrite Ha. simpl. by rewrite bool_decide_true.
Qed.

(** C2: the detail view serves a post scheduled for later to a viewer who
    is not its author, and to the anonymous viewer, although the post fails
    the visibility predicate. *)
Theorem PostDetailView_serves_scheduled_post :
  Post_objects Blog.db !! 3%nat = Some Blog.post3
  ∧ Post.author Blog.post3 ≠ 1%nat
  ∧ ¬ spec_publicly_visible Blog.db Blog.now Blog.post3
  ∧ PostDetailView.get_object Blog.db (Authenticated 1) 3 = Ok (3%nat, Blog.post3)
  ∧ PostDetailView.get_object Blog.db AnonymousUser 3 = Ok (3%nat, Blog.post3).
Proof.
  split; [reflexivity|]. split; [discriminate|]. split.
  - intros (_ & _ & _ & Hdate). vm_compute in Hdate. by apply Hdate.
  - split; vm_compute; reflexivity.
Qed.

(** C6, as stated, fails: bob's draft is not in the listing of the main
    page, and that listing does not depend on who asks. *)
Lemma PostListView_hides_own_draft :
  Post_objects Blog.db !! 4%nat = Some Blog.post4
  ∧ Post.author Blog.post4 = 2%nat
  ∧ ∀ n, (4%nat, Blog.post4, n) ∉ PostListView.get_queryset Blog.db Blog.now.
Proof.
  split; [reflexivity|]. split; [reflexivity|].
  intros n Hin. apply elem_of_PostListView_get_queryset in Hin.
  destruct Hin as (_ & (Hpub & _) & _). discriminate Hpub.
Qed.

(** C6, amended: the author of a stored post reaches its detail page
    whatever its flags and publish time; the listing of the main page takes
    no viewer and holds the post exactly when the visibility predicate
    holds. *)
Theorem author_reaches_own_post
    (db : DB) (viewer : request_user) (post_id : nat) (p : Post.t) :
  referential_integrity db = true →
  Post_objects db !! post_id = Some p →
  viewer = Authenticated (Post.author p) →
  PostDetailView.get_object db viewer post_id = Ok (post_id, p)
  ∧ (∀ now, (∃ n, (post_id, p, n) ∈ PostListView.get_queryset db now) ↔
            spec_publicly_visible db now p).
Proof.
  intros Hfk Hp ->. split; [by apply PostDetailView_get_object_author|].
  intros now. split.
  - intros (n & Hin). apply elem_of_PostListView_get_queryset in Hin. tauto.
  - intros Hvis. exists (Count_comments db post_id).
    by apply elem_of_PostListView_get_queryset.
Qed.

(** bob reaches his draft; the main page lists it for nobody. *)
Lemma author_reaches_own_post_witness :
  PostDetailView.get_object Blog.db (Authenticated 2) 4 = Ok (4%nat, Blog.post4)
  ∧ (∀ now, (∃ n, (4%nat, Blog.post4, n) ∈ PostListView.get_queryset Blog.db now) ↔
            spec_publicly_visible Blog.db now Blog.post4).
Proof.
  apply (author_reaches_own_post Blog.db (Authenticated 2) 4 Blog.post4);
    vm_compute; reflexivity.
Defined.

(** ** Category listing *)

(** No published category under the slug: not found. *)
Lemma CategoryPostsListView_get_queryset_not_found db now category_slug :
  (∀ k c, Category_objects db !! k = Some c →
          Category.slug c = category_slug →
          Category.is_published c = false) →
  CategoryPostsListView.get_queryset db now category_slug = Raise Http404.
Proof.
  intros Hnone.
  unfold CategoryPostsListView.get_queryset, CategoryPostsListView.get_category.
  rewrite get_object_or_404_none; [done|].
  intros [k c] Hx. apply elem_of_objects_all in Hx. lookups.
  intros (Hslug & Hpub & _). simpl in *.
  rewrite (Hnone k c Hx Hslug) in Hpub. discriminate.
Qed.

(** One published category under the slug: its posts that are published
    and not scheduled for later, whatever their location. *)
Lemma CategoryPostsListView_get_queryset_found db now category_slug k c :
  Category_objects db !! k = Some c →
  Category.slug c = category_slug →
  Category.is_published c = true →
  (∀ k' c', Category_objects db !! k' = Some c' →
            Category.slug c' = category_slug →
            Category.is_published c' = true → k' = k) →
  ∃ listing,
    CategoryPostsListView.get_queryset db now category_slug = Ok listing
    ∧ (∀ pk p n, (pk, p, n) ∈ listing ↔
         Post_objects db !! pk = Some p ∧ Post.category p = k
         ∧ Post.is_published p = true ∧ Post.pub_date p ≤ now
         ∧ n = spec_comment_count db pk)
    ∧ StronglySorted newest_first listing.
Proof.
  intros Hc Hslug Hpub Huniq.
  unfold CategoryPostsListView.get_queryset, CategoryPostsListView.get_category.
  rewrite (get_object_or_404_unique _ _ _ (k, c)); simpl.
  - eexists. split; [done|]. split.
    + intros pk p n.
      rewrite elem_of_annotate_comment_count, elem_of_order_by_desc,
        !elem_of_qs_filter, elem_of_objects_all, Count_comments_spec.
      do 2 lookups. simpl. split.
      * intros (((Hflag & Hdate & _) & (Hk & _) & Hp) & Hn). done.
      * intros (Hp & Hk & Hflag & Hdate & Hn). rewrite Hk, Hc.
        rewrite bool_decide_eq_true. done.
    + unfold annotate_comment_count.
      eapply StronglySorted_fmap; [|apply order_by_desc_sorted].
      intros x y Hxy. exact Hxy.
  - intros [k' c'] Hx. apply elem_of_objects_all in Hx. lookups. simpl. split.
    + intros (Hs & Hp & _). assert (k' = k) as -> by eauto. congruence.
    + by intros [= -> ->].
  - by apply elem_of_objects_all.
Qed.

(** C7: the listing of the published category "travel" holds a post whose
    location is unpublished, which the visibility predicate excludes. *)
Theorem CategoryPostsListView_lists_unpublished_location :
  Post_objects Blog.db !! 2%nat = Some Blog.post2
  ∧ ¬ spec_publicly_visible Blog.db Blog.now Blog.post2
  ∧ (∀ n, (2%nat, Blog.post2, n) ∉ PostListView.get_queryset Blog.db Blog.now)
  ∧ CategoryPostsListView.get_queryset Blog.db Blog.now "travel" =
    Ok [(2%nat, Blog.post2, 0%nat); (1%nat, Blog.post1, 2%nat)].
Proof.
  assert (Hhidden : ¬ spec_publicly_visible Blog.db Blog.now Blog.post2).
  { intros (_ & _ & (l & Hl & Hpub) & _).
    vm_compute in Hl. injection Hl as <-. discriminate Hpub. }
  split; [reflexivity|]. split; [exact Hhidden|]. split.
  - intros n Hin. apply elem_of_PostListView_get_queryset in Hin. tauto.
  - vm_compute. reflexivity.
Qed.

(** ** Comment routes *)

(** C5: bob edits his comment 1, stored under post 1, through the route of
    post 3: the edit is written and answered with a redirect, where the
    delete on the same route is not found and writes nothing. *)
Theorem CommentEditView_ignores_route_post :
  let request := mkRequest (Authenticated 2) POST [("text", "edited")] in
  let out := CommentEditView.dispatch Blog.CommentForm request 3 1 Blog.db in
  Comment_objects Blog.db !! 1%nat = Some Blog.comment1
  ∧ Comment.post Blog.comment1 ≠ 3%nat
  ∧ out.1 = Ok (HttpResponseRedirect (blog_post_detail 3))
  ∧ Comment_objects out.2 !! 1%nat = Some (Comment.mk "edited" 2 1)
  ∧ out.2 ≠ Blog.db
  ∧ CommentDeleteView.dispatch request 3 1 Blog.db = (Raise Http404, Blog.db).
Proof.
  simpl. split; [reflexivity|]. split; [discriminate|].
  split; [vm_compute; reflexivity|]. split; [vm_compute; reflexivity|].
  split; [|by apply CommentDeleteView_dispatch_route_mismatch with (c := Blog.comment1)].
  intros Heq.
  assert (Comment_objects
            (CommentEditView.dispatch Blog.CommentForm
               (mkRequest (Authenticated 2) POST [("text", "edited")]) 3 1 Blog.db).2
          !! 1%nat = Some Blog.comment1) as H by (by rewrite Heq).
  vm_compute in H. discriminate H.
Qed.

(** ** Anonymous requests *)

(** Whoever is not the author, the anonymous user included, writes nothing
    through the guarded post views. *)
Lemma AuthorPostMixin_dispatch_anonymous db request post_id p super_dispatch :
  referential_integrity db = true →
  user request = AnonymousUser →
  Post_objects db !! post_id = Some p →
  AuthorPostMixin.dispatch
    (query (λ db, get_object_or_404 (Post_holds db) (Post_objects db)
                    [pk_exact post_id]))
    request super_dispatch db =
  (Ok (HttpResponseRedirect (blog_post_detail post_id)), db).
Proof.
  intros Hfk Hu Hp.
  apply AuthorPostMixin_dispatch_not_author with (p := p); try done.
  by rewrite Hu.
Qed.

(** C9: an anonymous request to the edit or delete view of a stored post or
    comment is answered with the redirect to the post's detail page, and
    one that names no stored post with not-found; neither is the redirect
    to the login page.  Nothing is written. *)
Theorem anonymous_mutation_skips_login :
  let request := mkRequest AnonymousUser POST [("title", "x")] in
  let to_detail := (Ok (HttpResponseRedirect (blog_post_detail 1)), Blog.db) in
  PostEditView.dispatch Blog.PostForm request 1 Blog.db = to_detail
  ∧ PostDeleteView.dispatch Blog.CASCADE request 1 Blog.db = to_detail
  ∧ CommentEditView.dispatch Blog.CommentForm request 1 1 Blog.db = to_detail
  ∧ CommentDeleteView.dispatch request 1 1 Blog.db = to_detail
  ∧ PostEditView.dispatch Blog.PostForm request 9 Blog.db = (Raise Http404, Blog.db)
  ∧ to_detail.1 ≠ Ok (HttpResponseRedirect LOGIN_URL).
Proof.
  simpl. repeat split; try (vm_compute; reflexivity). discriminate.
Qed.

(** ** Examples of the theorems above *)

(** bob's profile, seen by the anonymous user. *)
Lemma UserDetailView_get_queryset_spec_witness :
  ∃ listing,
    UserDetailView.get_queryset Blog.db Blog.now AnonymousUser "bob" = Ok listing
    ∧ (∀ pk p n, (pk, p, n) ∈ listing ↔
         Post_objects Blog.db !! pk = Some p ∧ Post.author p = 2%nat
         ∧ (AnonymousUser ≠ Authenticated 2 → Post.pub_date p ≤ Blog.now)
         ∧ n = spec_comment_count Blog.db pk)
    ∧ StronglySorted newest_first listing
    ∧ NoDup listing.*1.*1.
Proof.
  apply (UserDetailView_get_queryset_spec Blog.db Blog.now AnonymousUser
           "bob" 2 Blog.bob); [reflexivity | reflexivity |].
  intros k v Hk Hname.
  destruct (decide (k = 2%nat)) as [->|Hne]; [done|].
  exfalso. unfold Blog.db in Hk. simpl in Hk.
  apply lookup_insert_Some in Hk as [[<- <-]|[_ Hk]]; [discriminate Hname|].
  apply lookup_singleton_Some in Hk as [<- _]. done.
Defined.

(** ann tries bob's post 3 and bob's comment 1. *)
Lemma non_owner_mutation_redirects_witness :
  let request := mkRequest (Authenticated 1) POST [("title", "Mine now")] in
  PostEditView.dispatch Blog.PostForm request 3 Blog.db =
    (Ok (HttpResponseRedirect (blog_post_detail 3)), Blog.db)
  ∧ PostDeleteView.dispatch Blog.CASCADE request 3 Blog.db =
    (Ok (HttpResponseRedirect (blog_post_detail 3)), Blog.db)
  ∧ CommentEditView.dispatch Blog.CommentForm request 1 1 Blog.db =
    (Ok (HttpResponseRedirect (blog_post_detail 1)), Blog.db)
  ∧ CommentDeleteView.dispatch request 1 1 Blog.db =
    (Ok (HttpResponseRedirect (blog_post_detail 1)), Blog.db).
Proof.
  intros request.
  destruct (non_owner_mutation_redirects Blog.PostForm Blog.CommentForm
              Blog.CASCADE Blog.db request 1 eq_refl eq_refl) as [HP HC].
  destruct (HP 3%nat Blog.post3 eq_refl) as [H1 H2]; [discriminate|].
  destruct (HC 1%nat Blog.comment1 eq_refl) as [H3 H4]; [discriminate|].
  split; [exact H1|]. split; [exact H2|]. split; [exact (H3 1%nat)|exact H4].
Defined.

(** ann requests the edit of bob's comment 1, stored under post 1, through
    the route of post 3, and is sent to post 1. *)
Lemma CommentEditView_non_owner_redirects_to_stored_post_witness :
  CommentEditView.get_object 1 Blog.db = (Ok (1%nat, Blog.comment1), Blog.db)
  ∧ CommentEditView.dispatch Blog.CommentForm
      (mkRequest (Authenticated 1) POST [("text", "edited")]) 3 1 Blog.db =
    (Ok (HttpResponseRedirect (blog_post_detail 1)), Blog.db).
Proof.
  apply (CommentEditView_non_owner_redirects_to_stored_post Blog.CommentForm
           Blog.db (mkRequest (Authenticated 1) POST [("text", "edited")])
           1 3 1 Blog.comment1);
    [reflexivity | reflexivity | reflexivity | discriminate].
Defined.

(** ** What each writing view does, case by case *)

Lemma user_eq_true pk u : user_eq pk u = true ↔ u = Authenticated pk.
Proof.
  destruct u as [|k]; simpl; [done|].
  rewrite bool_decide_eq_true. split; congruence.
Qed.

Lemma DB_eta db :
  {| User_objects := User_objects db;
     Category_objects := Category_objects db;
     Location_objects := Location_objects db;
     Post_objects := Post_objects db;
     Comment_objects := Comment_objects db |} = db.
Proof. by destruct db. Qed.

Lemma PostEditView_dispatch_cases PostForm request post_id db :
  PostEditView.dispatch PostForm request post_id db =
  match Post_objects db !! post_id with
  | None => (Raise Http404, db)
  | Some p =>
      match User_objects db !! Post.author p with
      | None => (Raise RelatedObjectDoesNotExist, db)
      | Some _ =>
          if user_eq (Post.author p) (user request) then
            match method request with
            | OPTIONS => (Ok HttpResponseAllow, db)
            | GET | HEAD => (Ok (TemplateResponse "blog/create.html"), db)
            | POST | PUT =>
                match PostForm (POST_data request) p with
                | Some row =>
                    (Ok (HttpResponseRedirect (blog_post_detail post_id)),
                     with_Post_objects (insert post_id row) db)
                | None => (Ok (TemplateResponse "blog/create.html"), db)
                end
            | _ => (Ok HttpResponseNotAllowed, db)
            end
          else (Ok (HttpResponseRedirect (blog_post_detail post_id)), db)
      end
  end.
Proof.
  unfold PostEditView.dispatch, AuthorPostMixin.dispatch,
    LoginRequiredMixin.dispatch, View_dispatch, ProcessFormView,
    PostEditView.get, PostEditView.post, PostEditView.get_object, save_Post.
  unfold_view. rewrite get_Post_by_pk.
  destruct (Post_objects db !! post_id) as [p|] eqn:Hp; simpl; [|done].
  destruct (User_objects db !! Post.author p) as [a|]; simpl; [|done].
  destruct (user_eq (Post.author p) (user request)) eqn:Hu; simpl; [|done].
  apply user_eq_true in Hu. rewrite Hu. simpl.
  destruct (method request); simpl; rewrite ?get_Post_by_pk, ?Hp; simpl;
    try done.
  all: by destruct (PostForm (POST_data request) p).
Qed.

Lemma PostDeleteView_dispatch_cases on_delete request post_id db :
  PostDeleteView.dispatch on_delete request post_id db =
  match Post_objects db !! post_id with
  | None => (Raise Http404, db)
  | Some p =>
      match User_objects db !! Post.author p with
      | None => (Raise RelatedObjectDoesNotExist, db)
      | Some author =>
          if user_eq (Post.author p) (user request) then
            match method request with
            | OPTIONS => (Ok HttpResponseAllow, db)
            | GET | HEAD => (Ok (TemplateResponse "blog/create.html"), db)
            | POST | DELETE =>
                (Ok (HttpResponseRedirect (blog_profile (User.username author))),
                 with_Comment_objects (on_delete post_id)
                   (with_Post_objects (delete post_id) db))
            | _ => (Ok HttpResponseNotAllowed, db)
            end
          else (Ok (HttpResponseRedirect (blog_post_detail post_id)), db)
      end
  end.
Proof.
  unfold PostDeleteView.dispatch, AuthorPostMixin.dispatch,
    LoginRequiredMixin.dispatch, View_dispatch, DeletionMixin,
    PostDeleteView.get, PostDeleteView.delete, PostDeleteView.get_object,
    PostDeleteView.get_success_url, delete_Post.
  unfold_view. rewrite get_Post_by_pk.
  destruct (Post_objects db !! post_id) as [p|] eqn:Hp; simpl; [|done].
  destruct (User_objects db !! Post.author p) as [a|] eqn:Ha; simpl; [|done].
  destruct (user_eq (Post.author p) (user request)) eqn:Hu; simpl; [|done].
  apply user_eq_true in Hu. rewrite Hu. simpl.
  destruct (method request); simpl; rewrite ?get_Post_by_pk, ?Hp; simpl;
    rewrite ?Ha; done.
Qed.

Lemma CommentEditView_dispatch_cases CommentForm request post_id comment_id db :
  CommentEditView.dispatch CommentForm request post_id comment_id db =
  match Comment_objects db !! comment_id with
  | None => (Raise Http404, db)
  | Some c =>
      match User_objects db !! Comment.author c with
      | None => (Raise RelatedObjectDoesNotExist, db)
      | Some _ =>
          if user_eq (Comment.author c) (user request) then
            match method request with
            | OPTIONS => (Ok HttpResponseAllow, db)
            | GET | HEAD => (Ok (TemplateResponse "blog/comment.html"), db)
            | POST | PUT =>
                match CommentForm (POST_data request) (Comment.to_instance c) with
                | Some instance =>
                    match Comment.to_row instance with
                    | Ok row =>
                        (Ok (HttpResponseRedirect (blog_post_detail post_id)),
                         with_Comment_objects (insert comment_id row) db)
                    | Raise e => (Raise e, db)
                    end
                | None => (Ok (TemplateResponse "blog/comment.html"), db)
                end
            | _ => (Ok HttpResponseNotAllowed, db)
            end
          else
            match Post_objects db !! Comment.post c with
            | Some _ =>
                (Ok (HttpResponseRedirect (blog_post_detail (Comment.post c))),
                 db)
            | None => (Raise RelatedObjectDoesNotExist, db)
            end
      end
  end.
Proof.
  unfold CommentEditView.dispatch, AuthorCommentMixin.dispatch,
    LoginRequiredMixin.dispatch, View_dispatch, ProcessFormView,
    CommentEditView.get, CommentEditView.post, CommentEditView.get_object,
    save_Comment.
  unfold_view. rewrite get_Comment_by_pk.
  destruct (Comment_objects db !! comment_id) as [c|] eqn:Hc; simpl; [|done].
  destruct (User_objects db !! Comment.author c) as [a|]; simpl; [|done].
  destruct (user_eq (Comment.author c) (user request)) eqn:Hu; simpl;
    [|by destruct (Post_objects db !! Comment.post c)].
  apply user_eq_true in Hu. rewrite Hu. simpl.
  destruct (method request); simpl; rewrite ?get_Comment_by_pk, ?Hc; simpl;
    try done.
  all: destruct (CommentForm (POST_data request) (Comment.to_instance c))
    as [i|]; simpl; [|done].
  all: by destruct (Comment.to_row i).
Qed.

Lemma CommentDeleteView_dispatch_cases request post_id comment_id db :
  CommentDeleteView.dispatch request post_id comment_id db =
  match Comment_objects db !! comment_id with
  | None => (Raise Http404, db)
  | Some c =>
      if bool_decide (Comment.post c = post_id) then
        match User_objects db !! Comment.author c with
        | None => (Raise RelatedObjectDoesNotExist, db)
        | Some _ =>
            if user_eq (Comment.author c) (user request) then
              match method request with
              | OPTIONS => (Ok HttpResponseAllow, db)
              | GET | HEAD => (Ok (TemplateResponse "blog/comment.html"), db)
              | POST | DELETE =>
                  (Ok (HttpResponseRedirect (blog_post_detail post_id)),
                   with_Comment_objects (delete comment_id) db)
              | _ => (Ok HttpResponseNotAllowed, db)
              end
            else
              match Post_objects db !! post_id with
              | Some _ =>
                  (Ok (HttpResponseRedirect (blog_post_detail post_id)), db)
              | None => (Raise RelatedObjectDoesNotExist, db)
              end
        end
      else (Raise Http404, db)
  end.
Proof.
  unfold CommentDeleteView.dispatch, AuthorCommentMixin.dispatch,
    LoginRequiredMixin.dispatch, View_dispatch, DeletionMixin,
    CommentDeleteView.get, CommentDeleteView.delete,
    CommentDeleteView.get_object, delete_Comment.
  unfold_view. rewrite get_Comment_by_pk_and_post.
  destruct (Comment_objects db !! comment_id) as [c|] eqn:Hc; simpl; [|done].
  case_bool_decide as Hpost; simpl; [|done]. subst post_id.
  destruct (User_objects db !! Comment.author c) as [a|]; simpl; [|done].
  destruct (user_eq (Comment.author c) (user request)) eqn:Hu; simpl;
    [|by destruct (Post_objects db !! Comment.post c)].
  apply user_eq_true in Hu. rewrite Hu. simpl.
  destruct (method request); simpl;
    rewrite ?get_Comment_by_pk_and_post, ?Hc, ?bool_decide_true by done;
    done.
Qed.

Lemma CommentCreateView_dispatch_cases CommentForm request post_id db :
  CommentCreateView.dispatch CommentForm request post_id db =
  match user request with
  | AnonymousUser => (Ok (HttpResponseRedirect LOGIN_URL), db)
  | Authenticated u =>
      match method request with
      | OPTIONS => (Ok HttpResponseAllow, db)
      | GET | HEAD => (Ok (TemplateResponse "blog/comment.html"), db)
      | POST | PUT =>
          match CommentForm (POST_data request) Comment.blank with
          | Some instance =>
              match Post_objects db !! post_id with
              | Some _ =>
                  (Ok (HttpResponseRedirect (blog_post_detail post_id)),
                   with_Comment_objects
                     (insert (fresh (dom (Comment_objects db)))
                        {| Comment.text := Comment.instance_text instance;
                           Comment.author := u;
                           Comment.post := post_id |}) db)
              | None => (Raise Http404, db)
              end
          | None => (Ok (TemplateResponse "blog/comment.html"), db)
          end
      | _ => (Ok HttpResponseNotAllowed, db)
      end
  end.
Proof.
  unfold CommentCreateView.dispatch, LoginRequiredMixin.dispatch,
    View_dispatch, ProcessFormView, CommentCreateView.get,
    CommentCreateView.post, CommentCreateView.form_valid, save_Comment.
  destruct request as [[|u] m data]; simpl; [done|].
  destruct m; simpl; try done.
  all: destruct (CommentForm data Comment.blank) as [i|]; simpl; [|done].
  all: unfold_view; rewrite get_Post_by_pk.
  all: by destruct (Post_objects db !! post_id).
Qed.

Lemma PostCreateView_dispatch_cases PostForm new request db :
  PostCreateView.dispatch PostForm new request db =
  match user request with
  | AnonymousUser => (Ok (HttpResponseRedirect LOGIN_URL), db)
  | Authenticated u =>
      match method request with
      | OPTIONS => (Ok HttpResponseAllow, db)
      | GET | HEAD => (Ok (TemplateResponse "blog/create.html"), db)
      | POST | PUT =>
          match PostForm (POST_data request) new with
          | Some instance =>
              match PostDraft.to_row (PostDraft.set_author instance u) with
              | Ok row =>
                  (match User_objects db !! u with
                   | Some author =>
                       Ok (HttpResponseRedirect
                             (blog_profile (User.username author)))
                   | None => Raise RelatedObjectDoesNotExist
                   end,
                   with_Post_objects
                     (insert (fresh (dom (Post_objects db))) row) db)
              | Raise e => (Raise e, db)
              end
          | None => (Ok (TemplateResponse "blog/create.html"), db)
          end
      | _ => (Ok HttpResponseNotAllowed, db)
      end
  end.
Proof.
  unfold PostCreateView.dispatch, LoginRequiredMixin.dispatch,
    View_dispatch, ProcessFormView, PostCreateView.get,
    PostCreateView.post, PostCreateView.form_valid, insert_Post,
    PostCreateView.get_success_url.
  destruct request as [[|u] m data]; simpl; [done|].
  destruct m; simpl; try done.
  all: destruct (PostForm data new) as [i|]; simpl; [|done].
  all: unfold_view.
  all: destruct (PostDraft.to_row (PostDraft.set_author i u)) as [row|e] eqn:Hrow;
    simpl; [|done].
  all: assert (Post.author row = u) as ->
    by (unfold PostDraft.to_row in Hrow; simpl in Hrow;
        repeat case_match; simplify_eq; done).
  all: by destruct (User_objects db !! u).
Qed.

Lemma EditProfileView_dispatch_cases EditProfileForm request db :
  EditProfileView.dispatch EditProfileForm request db =
  match user request with
  | AnonymousUser => (Ok (HttpResponseRedirect LOGIN_URL), db)
  | Authenticated u =>
      match method request with
      | OPTIONS => (Ok HttpResponseAllow, db)
      | PATCH | DELETE | TRACE => (Ok HttpResponseNotAllowed, db)
      | m =>
          match User_objects db !! u with
          | None => (Raise RelatedObjectDoesNotExist, db)
          | Some me =>
              match get_object_or_404 User.holds (User_objects db)
                      [User.username_exact (User.username me)] with
              | Raise e => (Raise e, db)
              | Ok object =>
                  if writes m then
                    match EditProfileForm (POST_data request) object.2 with
                    | Some row =>
                        (Ok (HttpResponseRedirect
                               (blog_profile (User.username row))),
                         with_User_objects (insert object.1 row) db)
                    | None => (Ok (TemplateResponse "blog/user.html"), db)
                    end
                  else (Ok (TemplateResponse "blog/user.html"), db)
              end
          end
      end
  end.
Proof.
  unfold EditProfileView.dispatch, LoginRequiredMixin.dispatch,
    View_dispatch, ProcessFormView, EditProfileView.get,
    EditProfileView.post, EditProfileView.get_object, save_User.
  destruct request as [[|u] m data]; simpl; [done|].
  destruct m; simpl; try done.
  all: unfold_view.
  all: destruct (User_objects db !! u) as [me|]; simpl; [|done].
  all: destruct (get_object_or_404 _ _ _) as [object|e]; simpl; [|done].
  all: try done.
  all: by destruct (EditProfileForm data object.2).
Qed.

(** ** Who writes, and when *)

(** X1: a guarded post view changes the database only for a write method sent
    by the author of the stored post. *)
Theorem only_the_author_writes_a_post
    (PostForm : ModelForm Post.t)
    (on_delete : nat → gmap nat Comment.t → gmap nat Comment.t)
    (request : HttpRequest) (post_id : nat) (db : DB) :
  (PostEditView.dispatch PostForm request post_id db).2 ≠ db
  ∨ (PostDeleteView.dispatch on_delete request post_id db).2 ≠ db →
  ∃ p, Post_objects db !! post_id = Some p
       ∧ user request = Authenticated (Post.author p)
       ∧ writes (method request) = true.
Proof.
  rewrite PostEditView_dispatch_cases, PostDeleteView_dispatch_cases.
  destruct (Post_objects db !! post_id) as [p|]; simpl; [|by intros [|]].
  destruct (User_objects db !! Post.author p) as [a|]; simpl;
    [|by intros [|]].
  destruct (user_eq (Post.author p) (user request)) eqn:Hu; simpl;
    [|by intros [|]].
  apply user_eq_true in Hu. intros Hchanged. exists p.
  split; [done|]. split; [done|].
  destruct (method request); simpl in *; try done; by destruct Hchanged.
Qed.

(** X2: a guarded comment view changes the database only for a write method
    sent by the author of the stored comment; a delete only on the route of
    the post the comment is stored under. *)
Theorem only_the_author_writes_a_comment
    (CommentForm : ModelForm Comment.instance)
    (request : HttpRequest) (post_id comment_id : nat) (db : DB) :
  ((CommentEditView.dispatch CommentForm request post_id comment_id db).2 ≠ db
   → ∃ c, Comment_objects db !! comment_id = Some c
          ∧ user request = Authenticated (Comment.author c)
          ∧ writes (method request) = true)
  ∧ ((CommentDeleteView.dispatch request post_id comment_id db).2 ≠ db
     → ∃ c, Comment_objects db !! comment_id = Some c
            ∧ user request = Authenticated (Comment.author c)
            ∧ writes (method request) = true
            ∧ Comment.post c = post_id).
Proof.
  rewrite CommentEditView_dispatch_cases, CommentDeleteView_dispatch_cases.
  destruct (Comment_objects db !! comment_id) as [c|]; simpl; [|done].
  destruct (User_objects db !! Comment.author c) as [a|]; simpl;
    [|split; [done|by case_bool_decide]].
  destruct (user_eq (Comment.author c) (user request)) eqn:Hu; simpl.
  - apply user_eq_true in Hu. split.
    + intros Hchanged. exists c. split; [done|]. split; [done|].
      by destruct (method request).
    + case_bool_decide; [|done]. intros Hchanged. exists c.
      split; [done|]. split; [done|]. split; [|done].
      by destruct (method request).
  - split.
    + by destruct (Post_objects db !! Comment.post c).
    + case_bool_decide; [|done]. by destruct (Post_objects db !! post_id).
Qed.

(** X3: a request whose method is none of POST, PUT and DELETE changes nothing,
    whichever of the seven writing views it goes to. *)
Theorem safe_methods_write_nothing
    (PostForm : ModelForm Post.t) (NewPostForm : ModelForm PostDraft.t)
    (new : PostDraft.t) (CommentForm : ModelForm Comment.instance)
    (EditProfileForm : ModelForm User.t)
    (on_delete : nat → gmap nat Comment.t → gmap nat Comment.t)
    (request : HttpRequest) (post_id comment_id : nat) (db : DB) :
  writes (method request) = false →
  (PostCreateView.dispatch NewPostForm new request db).2 = db
  ∧ (PostEditView.dispatch PostForm request post_id db).2 = db
  ∧ (PostDeleteView.dispatch on_delete request post_id db).2 = db
  ∧ (CommentCreateView.dispatch CommentForm request post_id db).2 = db
  ∧ (CommentEditView.dispatch CommentForm request post_id comment_id db).2 = db
  ∧ (CommentDeleteView.dispatch request post_id comment_id db).2 = db
  ∧ (EditProfileView.dispatch EditProfileForm request db).2 = db.
Proof.
  intros Hsafe.
  rewrite PostCreateView_dispatch_cases, PostEditView_dispatch_cases,
    PostDeleteView_dispatch_cases, CommentCreateView_dispatch_cases,
    CommentEditView_dispatch_cases, CommentDeleteView_dispatch_cases,
    EditProfileView_dispatch_cases.
  destruct (method request); try discriminate Hsafe;
    repeat split; repeat case_match; done.
Qed.

(** X4: the views that create a post, create a comment or edit the profile
    send the anonymous user to the login page and write nothing, whatever
    the method and the body. *)
Theorem anonymous_is_sent_to_login
    (NewPostForm : ModelForm PostDraft.t) (new : PostDraft.t)
    (CommentForm : ModelForm Comment.instance)
    (EditProfileForm : ModelForm User.t)
    (request : HttpRequest) (post_id : nat) (db : DB) :
  user request = AnonymousUser →
  PostCreateView.dispatch NewPostForm new request db =
    (Ok (HttpResponseRedirect LOGIN_URL), db)
  ∧ CommentCreateView.dispatch CommentForm request post_id db =
    (Ok (HttpResponseRedirect LOGIN_URL), db)
  ∧ EditProfileView.dispatch EditProfileForm request db =
    (Ok (HttpResponseRedirect LOGIN_URL), db).
Proof.
  intros Hanon.
  rewrite PostCreateView_dispatch_cases, CommentCreateView_dispatch_cases,
    EditProfileView_dispatch_cases.
  by rewrite Hanon.
Qed.

(** X5: a body that the form rejects is never stored: the five views with a
    form leave the database as it was. *)
Theorem rejected_form_writes_nothing
    (PostForm : ModelForm Post.t) (NewPostForm : ModelForm PostDraft.t)
    (new : PostDraft.t) (CommentForm : ModelForm Comment.instance)
    (EditProfileForm : ModelForm User.t)
    (request : HttpRequest) (post_id comment_id : nat) (db : DB) :
  ((∀ i, NewPostForm (POST_data request) i = None) →
   (PostCreateView.dispatch NewPostForm new request db).2 = db)
  ∧ ((∀ i, PostForm (POST_data request) i = None) →
     (PostEditView.dispatch PostForm request post_id db).2 = db)
  ∧ ((∀ i, CommentForm (POST_data request) i = None) →
     (CommentCreateView.dispatch CommentForm request post_id db).2 = db
     ∧ (CommentEditView.dispatch CommentForm request post_id comment_id db).2
       = db)
  ∧ ((∀ i, EditProfileForm (POST_data request) i = None) →
     (EditProfileView.dispatch EditProfileForm request db).2 = db).
Proof.
  rewrite PostCreateView_dispatch_cases, PostEditView_dispatch_cases,
    CommentCreateView_dispatch_cases, CommentEditView_dispatch_cases,
    EditProfileView_dispatch_cases.
  split; [|split; [|split]]; intros Hrej; try split;
    repeat case_match; try done; rewrite Hrej in *; done.
Qed.

(** ** Comment counts under writes *)

Lemma Count_comments_delete db k post_pk :
  (Count_comments (with_Comment_objects (delete k) db) post_pk
   + counts_for (Comment_objects db !! k) post_pk
   = Count_comments db post_pk)%nat.
Proof.
  rewrite !Count_comments_spec. unfold spec_comment_count. simpl.
  rewrite map_filter_delete, map_size_delete.
  destruct (Comment_objects db !! k) as [c|] eqn:Hc; simpl.
  - case_bool_decide as Hpost.
    + rewrite (map_lookup_filter_Some_2 _ _ k c) by done.
      pose proof (map_size_ne_0_lookup_2
                    (filter (λ kc : nat * Comment.t, Comment.post kc.2 = post_pk)
                       (Comment_objects db)) k) as Hne.
      rewrite (map_lookup_filter_Some_2 _ _ k c) in Hne by done.
      specialize (Hne (mk_is_Some _ _ eq_refl)). simpl. lia.
    + rewrite (map_lookup_filter_None_2 _ _ k); [simpl; lia|].
      right. intros x. rewrite Hc. by intros [= <-].
  - rewrite (map_lookup_filter_None_2 _ _ k); [simpl; lia|]. by left.
Qed.

Lemma Count_comments_insert db k c post_pk :
  (Count_comments (with_Comment_objects (insert k c) db) post_pk
   + counts_for (Comment_objects db !! k) post_pk
   = Count_comments db post_pk + counts_for (Some c) post_pk)%nat.
Proof.
  rewrite <- (Count_comments_delete db k post_pk).
  enough (Count_comments (with_Comment_objects (insert k c) db) post_pk
          = Count_comments (with_Comment_objects (delete k) db) post_pk
            + counts_for (Some c) post_pk)%nat by lia.
  rewrite !Count_comments_spec. unfold spec_comment_count. simpl.
  rewrite <- insert_delete_eq, map_filter_insert. simpl.
  case_decide as Hpost.
  - rewrite bool_decide_true by done.
    rewrite map_size_insert_None; [lia|].
    apply map_lookup_filter_None_2. left. apply lookup_delete_eq.
  - rewrite bool_decide_false by done.
    rewrite delete_id by apply lookup_delete_eq. lia.
Qed.

(** ** What the author's writes do *)

(** X6: whatever the form makes of the body, a post that the creation view adds
    has the requesting user as author, and the posts stored before are kept;
    a valid form sent by a stored user adds the post under an unused key and
    redirects to that user's profile. *)
Theorem PostCreateView_binds_author
    (PostForm : ModelForm PostDraft.t) (new : PostDraft.t)
    (request : HttpRequest) (db : DB) :
  let out := PostCreateView.dispatch PostForm new request db in
  (∀ k p, Post_objects out.2 !! k = Some p →
     Post_objects db !! k = Some p
     ∨ (Post_objects db !! k = None
        ∧ user request = Authenticated (Post.author p)))
  ∧ (∀ k p, Post_objects db !! k = Some p → Post_objects out.2 !! k = Some p)
  ∧ (∀ u U instance d c l,
       user request = Authenticated u →
       User_objects db !! u = Some U →
       method request = POST →
       PostForm (POST_data request) new = Some instance →
       PostDraft.pub_date instance = Some d →
       PostDraft.category instance = Some c →
       PostDraft.location instance = Some l →
       ∃ k, Post_objects db !! k = None
            ∧ out =
              (Ok (HttpResponseRedirect (blog_profile (User.username U))),
               with_Post_objects
                 (insert k {| Post.title := PostDraft.title instance;
                              Post.text := PostDraft.text instance;
                              Post.pub_date := d;
                              Post.is_published := PostDraft.is_published instance;
                              Post.author := u;
                              Post.category := c;
                              Post.location := l |}) db)).
Proof.
  intros out. subst out. rewrite PostCreateView_dispatch_cases.
  set (k := fresh (dom (Post_objects db))).
  assert (Hk : Post_objects db !! k = None)
    by apply not_elem_of_dom, is_fresh.
  destruct (user request) as [|u] eqn:Hu; simpl;
    [split; [by left|split; [done|intros; congruence]]|].
  destruct (method request) eqn:Hm; simpl;
    try (split; [by left|split; [done|intros; congruence]]).
  all: destruct (PostForm (POST_data request) new) as [i|] eqn:Hform; simpl;
    [|split; [by left|split; [done|intros; congruence]]].
  all: unfold PostDraft.to_row; simpl.
  all: destruct (PostDraft.pub_date i) as [d|] eqn:Hd; simpl;
    [|split; [by left|split; [done|intros; congruence]]].
  all: destruct (PostDraft.category i) as [c|] eqn:Hc; simpl;
    [|split; [by left|split; [done|intros; congruence]]].
  all: destruct (PostDraft.location i) as [l|] eqn:Hl; simpl;
    [|split; [by left|split; [done|intros; congruence]]].
  all: split; [|split].
  all: try (intros k' p; destruct (decide (k = k')) as [<-|Hne];
            [rewrite lookup_insert_eq; intros [= <-]; by right
            |rewrite lookup_insert_ne by done; by left]).
  all: try (intros k' p Hp; rewrite lookup_insert_ne; [done|congruence]).
  all: intros u' U i' d' c' l' [= <-] HU Hm' [= <-] Hd' Hc' Hl';
    first [discriminate Hm' | exists k; rewrite HU; split; [done|];
           repeat f_equal; congruence].
Qed.

(** X7: the author's valid edit of a post writes that row and no other, leaves
    every comment count as it was, redirects to the post, and the edit view
    then reads the new row back. *)
Theorem PostEditView_author_edit
    (PostForm : ModelForm Post.t) (request : HttpRequest)
    (post_id : nat) (db : DB) (p row : Post.t) :
  Post_objects db !! post_id = Some p →
  is_Some (User_objects db !! Post.author p) →
  user request = Authenticated (Post.author p) →
  method request = POST →
  PostForm (POST_data request) p = Some row →
  let db' := with_Post_objects (insert post_id row) db in
  PostEditView.dispatch PostForm request post_id db =
    (Ok (HttpResponseRedirect (blog_post_detail post_id)), db')
  ∧ PostEditView.get_object post_id db' = (Ok (post_id, row), db')
  ∧ (∀ k, k ≠ post_id → Post_objects db' !! k = Post_objects db !! k)
  ∧ (∀ pk, Count_comments db' pk = Count_comments db pk).
Proof.
  intros Hp [a Ha] Hu Hm Hform db'. split; [|split; [|split]].
  - rewrite PostEditView_dispatch_cases, Hp, Ha, Hu, Hm, Hform. simpl.
    by rewrite bool_decide_true.
  - unfold PostEditView.get_object, query. rewrite get_Post_by_pk.
    simpl. by rewrite lookup_insert_eq.
  - intros k Hne. simpl. by rewrite lookup_insert_ne.
  - done.
Qed.

(** X8: after the author has deleted a post, the post is gone for everyone: its
    detail page is not found, no listing of the main page holds it, and the
    other posts are untouched; the answer is the redirect to the author's
    profile. *)
Theorem PostDeleteView_author_delete
    (on_delete : nat → gmap nat Comment.t → gmap nat Comment.t)
    (request : HttpRequest) (post_id : nat) (db : DB)
    (p : Post.t) (U : User.t) :
  Post_objects db !! post_id = Some p →
  User_objects db !! Post.author p = Some U →
  user request = Authenticated (Post.author p) →
  method request = POST ∨ method request = DELETE →
  let out := PostDeleteView.dispatch on_delete request post_id db in
  out.1 = Ok (HttpResponseRedirect (blog_profile (User.username U)))
  ∧ Post_objects out.2 = delete post_id (Post_objects db)
  ∧ User_objects out.2 = User_objects db
  ∧ (∀ viewer, PostDetailView.get_object out.2 viewer post_id = Raise Http404)
  ∧ (∀ now q n, (post_id, q, n) ∉ PostListView.get_queryset out.2 now).
Proof.
  intros Hp HU Hu Hm out. subst out.
  rewrite PostDeleteView_dispatch_cases, Hp, HU, Hu. simpl.
  rewrite bool_decide_true by done.
  assert (Hgone : ∀ db', Post_objects db' = delete post_id (Post_objects db) →
            Post_objects db' !! post_id = None).
  { intros db' ->. apply lookup_delete_eq. }
  destruct Hm as [-> | ->]; simpl; (split; [done|split; [done|split; [done|]]]).
  all: split;
    [intros viewer; by apply PostDetailView_get_object_missing, Hgone
    |intros now q n Hin; apply elem_of_PostListView_get_queryset in Hin;
     destruct Hin as [Hin _]; by rewrite Hgone in Hin].
Qed.

(** X9: the author's valid edit of a comment writes that row and no other and
    the edit view reads it back; when the form leaves the post reference
    alone, every comment count stays as it was. *)
Theorem CommentEditView_author_edit
    (CommentForm : ModelForm Comment.instance) (request : HttpRequest)
    (post_id comment_id : nat) (db : DB) (c : Comment.t)
    (instance : Comment.instance) (a q : nat) :
  Comment_objects db !! comment_id = Some c →
  is_Some (User_objects db !! Comment.author c) →
  user request = Authenticated (Comment.author c) →
  method request = POST →
  CommentForm (POST_data request) (Comment.to_instance c) = Some instance →
  Comment.instance_author instance = Some a →
  Comment.instance_post instance = Some q →
  let row := {| Comment.text := Comment.instance_text instance;
                Comment.author := a; Comment.post := q |} in
  let db' := with_Comment_objects (insert comment_id row) db in
  CommentEditView.dispatch CommentForm request post_id comment_id db =
    (Ok (HttpResponseRedirect (blog_post_detail post_id)), db')
  ∧ CommentEditView.get_object comment_id db' = (Ok (comment_id, row), db')
  ∧ (∀ k, k ≠ comment_id →
          Comment_objects db' !! k = Comment_objects db !! k)
  ∧ (q = Comment.post c → ∀ pk, Count_comments db' pk = Count_comments db pk).
Proof.
  intros Hc [x Hx] Hu Hm Hform Ha Hq row db'. split; [|split; [|split]].
  - rewrite CommentEditView_dispatch_cases, Hc, Hx, Hu, Hm, Hform. simpl.
    rewrite bool_decide_true by done.
    unfold Comment.to_row. by rewrite Ha, Hq.
  - apply CommentEditView_get_object_found. simpl. apply lookup_insert_eq.
  - intros k Hne. simpl. by rewrite lookup_insert_ne.
  - intros -> pk.
    pose proof (Count_comments_insert db comment_id row pk) as Hcount.
    rewrite Hc in Hcount. unfold db'. simpl in Hcount. lia.
Qed.

(** X10: the author's delete of a comment, on the route of its post, removes
    that comment: the post has one comment fewer, every other post as many
    as before, and the same request again is not found. *)
Theorem CommentDeleteView_author_delete
    (request : HttpRequest) (comment_id : nat) (db : DB) (c : Comment.t) :
  Comment_objects db !! comment_id = Some c →
  is_Some (User_objects db !! Comment.author c) →
  user request = Authenticated (Comment.author c) →
  method request = POST ∨ method request = DELETE →
  let db' := with_Comment_objects (delete comment_id) db in
  CommentDeleteView.dispatch request (Comment.post c) comment_id db =
    (Ok (HttpResponseRedirect (blog_post_detail (Comment.post c))), db')
  ∧ S (Count_comments db' (Comment.post c)) = Count_comments db (Comment.post c)
  ∧ (∀ pk, pk ≠ Comment.post c →
           Count_comments db' pk = Count_comments db pk)
  ∧ CommentDeleteView.dispatch request (Comment.post c) comment_id db' =
    (Raise Http404, db').
Proof.
  intros Hc [x Hx] Hu Hm db'. split; [|split; [|split]].
  - rewrite CommentDeleteView_dispatch_cases, Hc, Hx, Hu. simpl.
    rewrite !bool_decide_true by done. by destruct Hm as [-> | ->].
  - pose proof (Count_comments_delete db comment_id (Comment.post c)) as Hcount.
    rewrite Hc in Hcount. simpl in Hcount.
    rewrite bool_decide_true in Hcount by done. unfold db'. lia.
  - intros pk Hne.
    pose proof (Count_comments_delete db comment_id pk) as Hcount.
    rewrite Hc in Hcount. simpl in Hcount.
    rewrite bool_decide_false in Hcount by done. unfold db'. lia.
  - rewrite CommentDeleteView_dispatch_cases. simpl.
    by rewrite lookup_delete_eq.
Qed.

(** X11: a comment that is created raises the comment count of the post of the
    route by one and leaves the count of every other post as it was. *)
Theorem CommentCreateView_raises_count
    (CommentForm : ModelForm Comment.instance) (request : HttpRequest)
    (post_id u : nat) (db : DB) (instance : Comment.instance) :
  user request = Authenticated u →
  method request = POST →
  CommentForm (POST_data request) Comment.blank = Some instance →
  is_Some (Post_objects db !! post_id) →
  let db' := (CommentCreateView.dispatch CommentForm request post_id db).2 in
  Count_comments db' post_id = S (Count_comments db post_id)
  ∧ (∀ pk, pk ≠ post_id → Count_comments db' pk = Count_comments db pk).
Proof.
  intros Hu Hm Hform [p Hp] db'. subst db'.
  rewrite CommentCreateView_dispatch_cases, Hu, Hm, Hform, Hp. simpl.
  set (k := fresh (dom (Comment_objects db))).
  assert (Hk : Comment_objects db !! k = None)
    by apply not_elem_of_dom, is_fresh.
  split; [|intros pk Hne].
  - pose proof (Count_comments_insert db k
      {| Comment.text := Comment.instance_text instance;
         Comment.author := u; Comment.post := post_id |} post_id) as Hcount.
    rewrite Hk in Hcount. simpl in Hcount.
    rewrite bool_decide_true in Hcount by done. lia.
  - pose proof (Count_comments_insert db k
      {| Comment.text := Comment.instance_text instance;
         Comment.author := u; Comment.post := post_id |} pk) as Hcount.
    rewrite Hk in Hcount. simpl in Hcount.
    rewrite bool_decide_false in Hcount by done. lia.
Qed.

(** X12: creating a comment and then deleting it, by the same stored user on the
    same route, gives back the database as it was before. *)
Theorem comment_create_then_delete
    (CommentForm : ModelForm Comment.instance) (request : HttpRequest)
    (post_id u : nat) (db : DB) (instance : Comment.instance) :
  user request = Authenticated u →
  is_Some (User_objects db !! u) →
  method request = POST →
  CommentForm (POST_data request) Comment.blank = Some instance →
  is_Some (Post_objects db !! post_id) →
  let db' := (CommentCreateView.dispatch CommentForm request post_id db).2 in
  ∃ k, Comment_objects db !! k = None
       ∧ Comment_objects db' !! k =
         Some {| Comment.text := Comment.instance_text instance;
                 Comment.author := u; Comment.post := post_id |}
       ∧ CommentDeleteView.dispatch request post_id k db' =
         (Ok (HttpResponseRedirect (blog_post_detail post_id)), db).
Proof.
  intros Hu [U HU] Hm Hform [p Hp] db'. subst db'.
  rewrite CommentCreateView_dispatch_cases, Hu, Hm, Hform, Hp. simpl.
  set (k := fresh (dom (Comment_objects db))).
  assert (Hk : Comment_objects db !! k = None)
    by apply not_elem_of_dom, is_fresh.
  exists k. split; [done|]. split; [apply lookup_insert_eq|].
  rewrite CommentDeleteView_dispatch_cases. simpl.
  rewrite lookup_insert_eq. simpl. rewrite bool_decide_true by done.
  rewrite HU, Hu, Hm. simpl. rewrite bool_decide_true by done.
  f_equal. unfold with_Comment_objects. simpl.
  rewrite delete_insert_id by done. apply DB_eta.
Qed.

(** X13: a comment for a post that is not stored: nothing is written, whatever
    the request; a valid form is answered with not-found, a GET with the
    form page. *)
Theorem CommentCreateView_missing_post
    (CommentForm : ModelForm Comment.instance) (request : HttpRequest)
    (post_id : nat) (db : DB) :
  Post_objects db !! post_id = None →
  let out := CommentCreateView.dispatch CommentForm request post_id db in
  out.2 = db
  ∧ (∀ u, user request = Authenticated u →
       (method request = POST →
        is_Some (CommentForm (POST_data request) Comment.blank) →
        out.1 = Raise Http404)
       ∧ (method request = GET →
          out.1 = Ok (TemplateResponse CommentCreateView.template_name))).
Proof.
  intros Hp out. subst out.
  rewrite CommentCreateView_dispatch_cases, Hp. split.
  - by repeat case_match.
  - intros u ->. split.
    + intros -> [i ->]. done.
    + intros ->. done.
Qed.

(** ** The profile *)

Lemma get_object_or_404_Ok_inv {A L} (holds : nat * A → L → bool)
    (table : gmap nat A) lookups row :
  get_object_or_404 holds table lookups = Ok row →
  qs_filter holds lookups (objects_all table) = [row].
Proof.
  unfold get_object_or_404.
  destruct (qs_filter holds lookups (objects_all table)) as [|x [|y l]];
    simpl; congruence.
Qed.

(** The row a get by the username of a stored user returns, if it returns
    one, is the row of that user. *)
Lemma get_own_User db u me object :
  User_objects db !! u = Some me →
  get_object_or_404 User.holds (User_objects db)
    [User.username_exact (User.username me)] = Ok object →
  object = (u, me).
Proof.
  intros Hme Hget. apply get_object_or_404_Ok_inv in Hget.
  assert ((u, me) ∈ qs_filter User.holds
            [User.username_exact (User.username me)]
            (objects_all (User_objects db))) as Hin.
  { rewrite elem_of_qs_filter, elem_of_objects_all. lookups. done. }
  rewrite Hget in Hin. by apply list_elem_of_singleton in Hin.
Qed.

(** X14: the profile view writes the row of the requesting user and nothing
    else, whatever the method and the body; when no other user has the same
    username, a valid form is stored in that row and answered with the
    redirect to the profile under the new username. *)
Theorem EditProfileView_writes_own_row
    (EditProfileForm : ModelForm User.t) (request : HttpRequest)
    (db : DB) (u : nat) (me : User.t) :
  user request = Authenticated u →
  User_objects db !! u = Some me →
  let out := EditProfileView.dispatch EditProfileForm request db in
  (∀ k, k ≠ u → User_objects out.2 !! k = User_objects db !! k)
  ∧ Post_objects out.2 = Post_objects db
  ∧ Comment_objects out.2 = Comment_objects db
  ∧ (∀ row,
       (∀ k v, User_objects db !! k = Some v →
               User.username v = User.username me → k = u) →
       method request = POST →
       EditProfileForm (POST_data request) me = Some row →
       out = (Ok (HttpResponseRedirect (blog_profile (User.username row))),
              with_User_objects (insert u row) db)).
Proof.
  intros Hu Hme out. subst out.
  rewrite EditProfileView_dispatch_cases, Hu, Hme.
  destruct (get_object_or_404 User.holds (User_objects db)
              [User.username_exact (User.username me)])
    as [object|e] eqn:Hget.
  - apply (get_own_User db u me) in Hget as ->; [|done]. simpl.
    split; [|split; [|split]].
    + intros k Hne. repeat case_match; simpl; try done.
      all: by rewrite lookup_insert_ne.
    + by repeat case_match.
    + by repeat case_match.
    + intros row _ -> ->. done.
  - split; [|split; [|split]]; try by repeat case_match.
    intros row Huniq _ _.
    rewrite (get_User_by_username db (User.username me) u me) in Hget;
      done.
Qed.

(** ** Pages *)

Lemma StronglySorted_sublist {R} (rel : relation R) (l1 l2 : list R) :
  l1 `sublist_of` l2 → StronglySorted rel l2 → StronglySorted rel l1.
Proof.
  induction 1 as [|x l1 l2 Hsub IH|x l1 l2 Hsub IH]; intros Hsorted.
  - constructor.
  - apply StronglySorted_inv in Hsorted as [Hl2 Hx].
    constructor; [by apply IH|].
    apply Forall_forall. intros y Hy.
    apply (proj1 (Forall_forall _ _) Hx). by eapply elem_of_sublist.
  - apply StronglySorted_inv in Hsorted as [Hl2 _]. by apply IH.
Qed.

Lemma StronglySorted_lookup_lt {R} (rel : relation R) (l : list R) i j x y :
  StronglySorted rel l → (i < j)%nat →
  l !! i = Some x → l !! j = Some y → rel x y.
Proof.
  intros Hsorted. revert i j.
  induction Hsorted as [|z l Hl IH Hz]; intros i j Hij Hi Hj; [done|].
  destruct j as [|j]; [lia|]. destruct i as [|i]; simpl in *.
  - injection Hi as <-.
    apply (proj1 (Forall_forall _ _) Hz), list_elem_of_lookup. eauto.
  - apply (IH i j); [lia|done..].
Qed.

Lemma paginate_queryset_Ok {R} per_page number (queryset page : list R) :
  paginate_queryset per_page number queryset = Ok page →
  (1 ≤ number)%nat
  ∧ (number ≤ num_pages per_page (length queryset))%nat
  ∧ page = take per_page (drop ((number - 1) * per_page) queryset).
Proof.
  unfold paginate_queryset.
  destruct (bool_decide (1 ≤ number)%nat) eqn:H1; simpl; [|done].
  destruct (bool_decide (number ≤ _)%nat) eqn:H2; simpl; [|done].
  apply bool_decide_eq_true in H1, H2. by intros [= <-].
Qed.

Lemma paginate_queryset_sublist {R} per_page number (queryset page : list R) :
  paginate_queryset per_page number queryset = Ok page →
  page `sublist_of` queryset.
Proof.
  intros (_ & _ & ->)%paginate_queryset_Ok.
  etrans; [apply sublist_take|apply sublist_drop].
Qed.

(** What holds of every page of ten: it is a run of the queryset of at most
    ten rows, empty only if it is the first, and a row of an earlier page
    comes before a row of a later page. *)
Lemma paginate_queryset_page {R} (rel : relation R)
    number (queryset page : list R) :
  StronglySorted rel queryset →
  paginate_queryset paginate_by number queryset = Ok page →
  (length page ≤ paginate_by)%nat
  ∧ (number ≠ 1%nat → page ≠ [])
  ∧ StronglySorted rel page
  ∧ (∀ later page',
       (number < later)%nat →
       paginate_queryset paginate_by later queryset = Ok page' →
       ∀ x y, x ∈ page → y ∈ page' → rel x y).
Proof.
  intros Hsorted Hpage.
  pose proof (paginate_queryset_sublist _ _ _ _ Hpage) as Hsub.
  apply paginate_queryset_Ok in Hpage as (H1 & Hlast & ->).
  unfold paginate_by, num_pages in *.
  split; [|split; [|split]].
  - rewrite length_take. lia.
  - intros Hne Hnil.
    assert (length (take 10 (drop ((number - 1) * 10) queryset)) = 0%nat)
      as Hzero by by rewrite Hnil.
    rewrite length_take, length_drop in Hzero.
    case_bool_decide as Hlen; [lia|].
    pose proof (Nat.div_mod_eq (length queryset + 10 - 1) 10).
    pose proof (Nat.mod_upper_bound (length queryset + 10 - 1) 10). lia.
  - by eapply StronglySorted_sublist.
  - intros later page' Hlater (_ & _ & ->)%paginate_queryset_Ok x y Hx Hy.
    apply elem_of_take in Hx as (i & Hi & Hi10).
    apply elem_of_take in Hy as (j & Hj & _).
    rewrite lookup_drop in Hi, Hj.
    eapply (StronglySorted_lookup_lt rel queryset); [done| |done..]. nia.
Qed.

Lemma length_select_related_author db qs :
  (∀ row, row ∈ qs → is_Some (User_objects db !! Comment.author row.2)) →
  length (select_related_author db qs) = length qs.
Proof.
  unfold select_related_author.
  induction qs as [|row qs IH]; intros Hall; [done|]. simpl.
  destruct (Hall row) as [a Ha]; [by left|]. rewrite Ha. simpl.
  f_equal. apply IH. intros row' Hrow'. apply Hall. by right.
Qed.

(** ** The pages of the read-only views *)

Lemma PostDetailView_get_object_pk db viewer post_id served :
  PostDetailView.get_object db viewer post_id = Ok served →
  served.1 = post_id.
Proof.
  unfold PostDetailView.get_object. rewrite get_Post_by_pk. unfold related.
  destruct (Post_objects db !! post_id) as [p|]; simpl; [|done].
  destruct (User_objects db !! Post.author p) as [a|]; simpl; [|done].
  destruct (user_eq (Post.author p) viewer); [by intros [= <-]|].
  destruct (Post.is_published p); [|done]. simpl.
  destruct (Category_objects db !! Post.category p) as [c|]; simpl; [|done].
  destruct (Category.is_published c); [|done].
  destruct (Location_objects db !! Post.location p) as [l|]; simpl; [|done].
  destruct (Location.is_published l); [|done]. by intros [= <-].
Qed.

(** X15: the detail view gives out a stored post, under its own identifier, and
    only to its author or when the post, its category and its location are
    all published. *)
Theorem PostDetailView_serves_only_what_it_may
    (db : DB) (viewer : request_user) (post_id : nat) (served : nat * Post.t) :
  PostDetailView.get_object db viewer post_id = Ok served →
  ∃ p, served = (post_id, p)
       ∧ Post_objects db !! post_id = Some p
       ∧ (viewer = Authenticated (Post.author p)
          ∨ (Post.is_published p = true
             ∧ (∃ c, Category_objects db !! Post.category p = Some c
                     ∧ Category.is_published c = true)
             ∧ (∃ l, Location_objects db !! Post.location p = Some l
                     ∧ Location.is_published l = true))).
Proof.
  unfold PostDetailView.get_object. rewrite get_Post_by_pk. unfold related.
  destruct (Post_objects db !! post_id) as [p|] eqn:Hp; simpl; [|done].
  destruct (User_objects db !! Post.author p) as [a|]; simpl; [|done].
  destruct (user_eq (Post.author p) viewer) eqn:Hu.
  - apply user_eq_true in Hu. intros [= <-]. exists p.
    split; [done|]. split; [done|]. by left.
  - destruct (Post.is_published p) eqn:Hpub; [|done]. simpl.
    destruct (Category_objects db !! Post.category p) as [c|] eqn:Hcat;
      simpl; [|done].
    destruct (Category.is_published c) eqn:Hc; [|done].
    destruct (Location_objects db !! Post.location p) as [l|] eqn:Hloc;
      simpl; [|done].
    destruct (Location.is_published l) eqn:Hl; [|done].
    intros [= <-]. exists p. split; [done|]. split; [done|]. right.
    split; [done|]. split; [exists c|exists l]; by split.
Qed.

(** X16: the comments on a detail page are the stored comments of that post,
    each with the row of its author, and there are as many of them as the
    comment count that the listings attach to the post. *)
Theorem PostDetailView_get_comments
    (db : DB) (viewer : request_user) (post_id : nat)
    (object : nat * Post.t) (comments : list (nat * Comment.t * User.t)) :
  referential_integrity db = true →
  PostDetailView_get db viewer post_id = Ok (object, comments) →
  object.1 = post_id
  ∧ (∀ k c a, (k, c, a) ∈ comments ↔
       Comment_objects db !! k = Some c ∧ Comment.post c = post_id
       ∧ User_objects db !! Comment.author c = Some a)
  ∧ length comments = Count_comments db post_id.
Proof.
  intros Hfk. unfold PostDetailView_get.
  destruct (PostDetailView.get_object db viewer post_id) as [served|e] eqn:Hget;
    simpl; [|done].
  apply PostDetailView_get_object_pk in Hget.
  destruct served as [pk p]. simpl in Hget. subst pk.
  intros [= <- <-]. simpl. split; [done|]. split.
  - intros k c a. unfold PostDetailView_get_context_data, select_related_author.
    rewrite list_elem_of_omap. simpl. split.
    + intros ([k' c'] & Hin & Hrow).
      apply elem_of_qs_filter in Hin as [Hl Hin].
      apply elem_of_objects_all in Hin. revert Hl. lookups. simpl in *.
      destruct (User_objects db !! Comment.author c') as [a'|] eqn:Ha;
        simpl in Hrow; [|done].
      injection Hrow as <- <- <-. tauto.
    + intros (Hc & Hpost & Ha). exists (k, c). split.
      * rewrite elem_of_qs_filter, elem_of_objects_all. lookups. done.
      * simpl. by rewrite Ha.
  - unfold PostDetailView_get_context_data, Count_comments.
    apply length_select_related_author. intros [k c] Hin.
    apply elem_of_qs_filter in Hin as [_ Hin].
    apply elem_of_objects_all in Hin.
    by destruct (referential_integrity_Comment db k c Hfk Hin).
Qed.

(** X17: the pages of the main listing: every visible post is on some page; a
    page holds at most ten rows, all of them visible posts with their
    comment counts, newest first; only the first page can be empty; and the
    posts of an earlier page are at least as new as those of a later one. *)
Theorem PostListView_get_pages (db : DB) (now : Z) :
  (∀ pk p,
     Post_objects db !! pk = Some p → spec_publicly_visible db now p →
     ∃ number page n,
       PostListView_get db now number = Ok page ∧ (pk, p, n) ∈ page)
  ∧ (∀ number page,
       PostListView_get db now number = Ok page →
       (length page ≤ paginate_by)%nat
       ∧ (number ≠ 1%nat → page ≠ [])
       ∧ (∀ pk p n, (pk, p, n) ∈ page →
            Post_objects db !! pk = Some p ∧ spec_publicly_visible db now p
            ∧ n = Count_comments db pk)
       ∧ StronglySorted newest_first page
       ∧ (∀ later page',
            (number < later)%nat →
            PostListView_get db now later = Ok page' →
            ∀ x y, x ∈ page → y ∈ page' → newest_first x y)).
Proof.
  unfold PostListView_get. split.
  - intros pk p Hp Hvis.
    assert ((pk, p, Count_comments db pk) ∈ PostListView.get_queryset db now)
      as Hin by by apply elem_of_PostListView_get_queryset.
    apply elem_of_paginate_queryset in Hin as (number & page & Hpage & Hin).
    eauto.
  - intros number page Hpage.
    assert (StronglySorted newest_first (PostListView.get_queryset db now))
      as Hsorted.
    { unfold PostListView.get_queryset, annotate_comment_count.
      eapply StronglySorted_fmap; [|apply order_by_desc_sorted].
      intros x y Hxy. exact Hxy. }
    destruct (paginate_queryset_page newest_first _ _ _ Hsorted Hpage)
      as (Hlen & Hne & Hs & Hlater).
    split; [done|]. split; [done|]. split; [|by split].
    intros pk p n Hin. apply elem_of_PostListView_get_queryset.
    eapply elem_of_sublist; [done|]. by eapply paginate_queryset_sublist.
Qed.

(** X18: a page of a category listing comes with the category it was asked for,
    which is stored, published and has the slug; every post on the page is
    a stored post of that very category, is published and not scheduled for
    later, and carries its comment count; the page is newest first and
    holds at most ten posts. *)
Theorem CategoryPostsListView_get_page
    (db : DB) (now : Z) (category_slug : string) (number : nat)
    (category : nat * Category.t) (page : list (nat * Post.t * nat)) :
  CategoryPostsListView_get db now category_slug number = Ok (category, page) →
  Category_objects db !! category.1 = Some category.2
  ∧ Category.slug category.2 = category_slug
  ∧ Category.is_published category.2 = true
  ∧ (∀ pk p n, (pk, p, n) ∈ page →
       Post_objects db !! pk = Some p ∧ Post.category p = category.1
       ∧ Post.is_published p = true ∧ Post.pub_date p ≤ now
       ∧ n = Count_comments db pk)
  ∧ StronglySorted newest_first page
  ∧ (length page ≤ paginate_by)%nat.
Proof.
  unfold CategoryPostsListView_get, CategoryPostsListView.get_queryset.
  destruct (CategoryPostsListView.get_category db category_slug)
    as [found|e] eqn:Hget; simpl; [|done].
  set (queryset := annotate_comment_count db _).
  destruct (paginate_queryset paginate_by number queryset) as [page'|e]
    eqn:Hpage; simpl; [|done].
  intros [= <- <-].
  apply get_object_or_404_Ok_inv in Hget.
  assert (found ∈ qs_filter Category.holds
            [Category.slug_exact category_slug;
             Category.is_published_exact true]
            (objects_all (Category_objects db))) as Hfound
    by (rewrite Hget; by left).
  destruct found as [k c]. revert Hfound.
  rewrite elem_of_qs_filter, elem_of_objects_all. lookups. simpl.
  intros ((Hslug & Hpub & _) & Hc).
  assert (StronglySorted newest_first queryset) as Hsorted.
  { unfold queryset, annotate_comment_count.
    eapply StronglySorted_fmap; [|apply order_by_desc_sorted].
    intros x y Hxy. exact Hxy. }
  destruct (paginate_queryset_page newest_first _ _ _ Hsorted Hpage)
    as (Hlen & _ & Hs & _).
  split; [done|]. split; [done|]. split; [done|]. split; [|by split].
  intros pk p n Hin.
  assert ((pk, p, n) ∈ queryset) as Hq.
  { eapply elem_of_sublist; [done|]. by eapply paginate_queryset_sublist. }
  revert Hq. unfold queryset.
  rewrite elem_of_annotate_comment_count, elem_of_order_by_desc,
    !elem_of_qs_filter, elem_of_objects_all.
  do 2 lookups. simpl. tauto.
Qed.

(** X19: a page of a profile comes with the stored user of that username; every
    post on it is a stored post of that user, for a viewer other than that
    user one whose publish time is not after now, and carries its comment
    count; the page is newest first and holds at most ten posts. *)
Theorem UserDetailView_get_page
    (db : DB) (now : Z) (viewer : request_user) (username : string)
    (number : nat) (profile : nat * User.t)
    (page : list (nat * Post.t * nat)) :
  UserDetailView_get db now viewer username number = Ok (profile, page) →
  User_objects db !! profile.1 = Some profile.2
  ∧ User.username profile.2 = username
  ∧ (∀ pk p n, (pk, p, n) ∈ page →
       Post_objects db !! pk = Some p ∧ Post.author p = profile.1
       ∧ (viewer ≠ Authenticated profile.1 → Post.pub_date p ≤ now)
       ∧ n = Count_comments db pk)
  ∧ StronglySorted newest_first page
  ∧ (length page ≤ paginate_by)%nat.
Proof.
  unfold UserDetailView_get, UserDetailView.get_queryset.
  destruct (get_object_or_404 User.holds (User_objects db)
              [User.username_exact username]) as [found|e] eqn:Hget;
    simpl; [|done].
  set (own := order_by_desc _ (annotate_comment_count db _)).
  assert (Hown : ∀ pk p n, (pk, p, n) ∈ own →
            Post_objects db !! pk = Some p ∧ Post.author p = found.1
            ∧ n = Count_comments db pk).
  { intros pk p n. unfold own.
    rewrite elem_of_order_by_desc, elem_of_annotate_comment_count,
      elem_of_qs_filter, elem_of_objects_all. lookups. simpl. tauto. }
  assert (StronglySorted newest_first own) as Hsorted
    by apply order_by_desc_sorted.
  apply get_object_or_404_Ok_inv in Hget.
  assert (found ∈ qs_filter User.holds [User.username_exact username]
            (objects_all (User_objects db))) as Hfound
    by (rewrite Hget; by left).
  destruct found as [w W]. revert Hfound.
  rewrite elem_of_qs_filter, elem_of_objects_all. lookups. simpl.
  intros ((Hname & _) & HW). simpl in Hown.
  destruct (user_eq w viewer) eqn:Hu; simpl.
  - apply user_eq_true in Hu.
    destruct (paginate_queryset paginate_by number own) as [page'|e]
      eqn:Hpage; simpl; [|done].
    intros [= <- <-]. simpl.
    destruct (paginate_queryset_page newest_first _ _ _ Hsorted Hpage)
      as (Hlen & _ & Hs & _).
    split; [done|]. split; [done|]. split; [|by split].
    intros pk p n Hin.
    destruct (Hown pk p n) as (Hp & Ha & Hn).
    { eapply elem_of_sublist; [done|]. by eapply paginate_queryset_sublist. }
    done.
  - set (due := qs_filter _ [pub_date__lte now] own).
    destruct (paginate_queryset paginate_by number due) as [page'|e]
      eqn:Hpage; simpl; [|done].
    intros [= <- <-]. simpl.
    assert (StronglySorted newest_first due) as Hdue
      by by apply StronglySorted_qs_filter.
    destruct (paginate_queryset_page newest_first _ _ _ Hdue Hpage)
      as (Hlen & _ & Hs & _).
    split; [done|]. split; [done|]. split; [|by split].
    intros pk p n Hin.
    assert ((pk, p, n) ∈ due) as Hq.
    { eapply elem_of_sublist; [done|]. by eapply paginate_queryset_sublist. }
    revert Hq. unfold due. rewrite elem_of_qs_filter. lookups. simpl.
    intros ((Hdate & _) & Hq). destruct (Hown pk p n Hq) as (Hp & Ha & Hn).
    done.
Qed.

(** X20: a slug that names no published category, and a username that names no
    user, are not found, whatever page and whoever asks. *)
Theorem list_pages_not_found (db : DB) (now : Z) (number : nat) :
  (∀ category_slug,
     (∀ k c, Category_objects db !! k = Some c →
             Category.slug c = category_slug →
             Category.is_published c = false) →
     CategoryPostsListView_get db now category_slug number = Raise Http404)
  ∧ (∀ viewer username,
       (∀ k v, User_objects db !! k = Some v → User.username v ≠ username) →
       UserDetailView_get db now viewer username number = Raise Http404).
Proof.
  split.
  - intros category_slug Hnone. unfold CategoryPostsListView_get.
    by rewrite CategoryPostsListView_get_queryset_not_found.
  - intros viewer username Hnone.
    unfold UserDetailView_get, UserDetailView.get_queryset.
    rewrite get_object_or_404_none; [done|].
    intros [k v] Hx. apply elem_of_objects_all in Hx. lookups.
    intros [Hname _]. by apply (Hnone k v).
Qed.

(** ** Examples of the theorems on the remaining views *)

(** bob's edit of his post 3 changes the database; he is its author. *)
Lemma only_the_author_writes_a_post_witness :
  ∃ p, Post_objects Blog.db !! 3%nat = Some p
       ∧ Authenticated 2 = Authenticated (Post.author p)
       ∧ writes POST = true.
Proof.
  apply (only_the_author_writes_a_post Blog.PostForm Blog.CASCADE
           (mkRequest (Authenticated 2) POST [("title", "Moved")]) 3 Blog.db).
  left. intros Heq.
  assert (Post_objects
            (PostEditView.dispatch Blog.PostForm
               (mkRequest (Authenticated 2) POST [("title", "Moved")])
               3 Blog.db).2 !! 3%nat = Some Blog.post3) as H
    by (by rewrite Heq).
  vm_compute in H. discriminate H.
Defined.

(** bob's edit and delete of his comment 1 change the database. *)
Lemma only_the_author_writes_a_comment_witness :
  (∃ c, Comment_objects Blog.db !! 1%nat = Some c
        ∧ Authenticated 2 = Authenticated (Comment.author c)
        ∧ writes POST = true)
  ∧ (∃ c, Comment_objects Blog.db !! 1%nat = Some c
          ∧ Authenticated 2 = Authenticated (Comment.author c)
          ∧ writes POST = true
          ∧ Comment.post c = 1%nat).
Proof.
  destruct (only_the_author_writes_a_comment Blog.CommentForm
              (mkRequest (Authenticated 2) POST [("text", "edited")])
              1 1 Blog.db) as [Hedit Hdelete].
  split; [apply Hedit|apply Hdelete]; intros Heq.
  - assert (Comment_objects
              (CommentEditView.dispatch Blog.CommentForm
                 (mkRequest (Authenticated 2) POST [("text", "edited")])
                 1 1 Blog.db).2 !! 1%nat = Some Blog.comment1) as H
      by (by rewrite Heq).
    vm_compute in H. discriminate H.
  - assert (Comment_objects
              (CommentDeleteView.dispatch
                 (mkRequest (Authenticated 2) POST [("text", "edited")])
                 1 1 Blog.db).2 !! 1%nat = Some Blog.comment1) as H
      by (by rewrite Heq).
    vm_compute in H. discriminate H.
Defined.

(** A GET by bob on the delete page of his comment writes nothing. *)
Lemma safe_methods_write_nothing_witness :
  (CommentDeleteView.dispatch (mkRequest (Authenticated 2) GET []) 1 1
     Blog.db).2 = Blog.db.
Proof.
  destruct (safe_methods_write_nothing Blog.PostForm BlogForms.PostForm
              BlogForms.new_post Blog.CommentForm BlogForms.EditProfileForm
              Blog.CASCADE (mkRequest (Authenticated 2) GET []) 1 1 Blog.db
              eq_refl) as (_ & _ & _ & _ & _ & H & _).
  exact H.
Defined.

(** An anonymous POST to the three views. *)
Lemma anonymous_is_sent_to_login_witness :
  PostCreateView.dispatch BlogForms.PostForm BlogForms.new_post
    (mkRequest AnonymousUser POST [("title", "Hi")]) Blog.db =
    (Ok (HttpResponseRedirect LOGIN_URL), Blog.db)
  ∧ CommentCreateView.dispatch Blog.CommentForm
      (mkRequest AnonymousUser POST [("title", "Hi")]) 1 Blog.db =
    (Ok (HttpResponseRedirect LOGIN_URL), Blog.db)
  ∧ EditProfileView.dispatch BlogForms.EditProfileForm
      (mkRequest AnonymousUser POST [("title", "Hi")]) Blog.db =
    (Ok (HttpResponseRedirect LOGIN_URL), Blog.db).
Proof.
  apply (anonymous_is_sent_to_login BlogForms.PostForm BlogForms.new_post
           Blog.CommentForm BlogForms.EditProfileForm
           (mkRequest AnonymousUser POST [("title", "Hi")]) 1 Blog.db).
  reflexivity.
Defined.

(** A body without the field the forms ask for. *)
Lemma rejected_form_writes_nothing_witness :
  (CommentCreateView.dispatch Blog.CommentForm
     (mkRequest (Authenticated 2) POST []) 1 Blog.db).2 = Blog.db
  ∧ (CommentEditView.dispatch Blog.CommentForm
       (mkRequest (Authenticated 2) POST []) 1 1 Blog.db).2 = Blog.db.
Proof.
  destruct (rejected_form_writes_nothing Blog.PostForm BlogForms.PostForm
              BlogForms.new_post Blog.CommentForm BlogForms.EditProfileForm
              (mkRequest (Authenticated 2) POST []) 1 1 Blog.db)
    as (_ & _ & H & _).
  apply H. reflexivity.
Defined.

(** bob creates a post through a form that names ann as the author: the
    stored post is bob's. *)
Lemma PostCreateView_binds_author_witness :
  ∃ k, Post_objects Blog.db !! k = None
       ∧ PostCreateView.dispatch BlogForms.PostForm BlogForms.new_post
           (mkRequest (Authenticated 2) POST [("title", "Hi")]) Blog.db =
         (Ok (HttpResponseRedirect (blog_profile "bob")),
          with_Post_objects
            (insert k (Post.mk "Hi" "..." 40 true 2 1 1)) Blog.db).
Proof.
  destruct (PostCreateView_binds_author BlogForms.PostForm BlogForms.new_post
              (mkRequest (Authenticated 2) POST [("title", "Hi")]) Blog.db)
    as (_ & _ & H).
  apply (H 2%nat Blog.bob
           (PostDraft.mk "Hi" "..." (Some 40) true
              (Some 1%nat) (Some 1%nat) (Some 1%nat)) 40 1%nat 1%nat);
    reflexivity.
Defined.

(** bob retitles his post 3. *)
Lemma PostEditView_author_edit_witness :
  PostEditView.dispatch Blog.PostForm
    (mkRequest (Authenticated 2) POST [("title", "Moved")]) 3 Blog.db =
  (Ok (HttpResponseRedirect (blog_post_detail 3)),
   with_Post_objects (insert 3%nat (Post.mk "Moved" "..." 30 true 2 1 1))
     Blog.db).
Proof.
  apply (PostEditView_author_edit Blog.PostForm
           (mkRequest (Authenticated 2) POST [("title", "Moved")]) 3 Blog.db
           Blog.post3 (Post.mk "Moved" "..." 30 true 2 1 1));
    [reflexivity | by exists Blog.bob | reflexivity..].
Defined.

(** bob deletes his post 3. *)
Lemma PostDeleteView_author_delete_witness :
  (PostDeleteView.dispatch Blog.CASCADE
     (mkRequest (Authenticated 2) POST []) 3 Blog.db).1 =
  Ok (HttpResponseRedirect (blog_profile "bob")).
Proof.
  apply (PostDeleteView_author_delete Blog.CASCADE
           (mkRequest (Authenticated 2) POST []) 3 Blog.db
           Blog.post3 Blog.bob);
    [reflexivity | reflexivity | reflexivity | by left].
Defined.

(** bob rewords his comment 1. *)
Lemma CommentEditView_author_edit_witness :
  CommentEditView.dispatch Blog.CommentForm
    (mkRequest (Authenticated 2) POST [("text", "edited")]) 1 1 Blog.db =
  (Ok (HttpResponseRedirect (blog_post_detail 1)),
   with_Comment_objects (insert 1%nat (Comment.mk "edited" 2 1)) Blog.db).
Proof.
  apply (CommentEditView_author_edit Blog.CommentForm
           (mkRequest (Authenticated 2) POST [("text", "edited")]) 1 1 Blog.db
           Blog.comment1 (Comment.mk_instance "edited" (Some 2%nat) (Some 1%nat))
           2 1);
    [reflexivity | by exists Blog.bob | reflexivity..].
Defined.

(** bob deletes his comment 1: post 1 is left with one comment. *)
Lemma CommentDeleteView_author_delete_witness :
  S (Count_comments (with_Comment_objects (delete 1%nat) Blog.db) 1) =
  Count_comments Blog.db 1.
Proof.
  apply (CommentDeleteView_author_delete
           (mkRequest (Authenticated 2) POST []) 1 Blog.db Blog.comment1);
    [reflexivity | by exists Blog.bob | reflexivity | by left].
Defined.

(** ann comments on post 3. *)
Lemma CommentCreateView_raises_count_witness :
  Count_comments
    (CommentCreateView.dispatch Blog.CommentForm
       (mkRequest (Authenticated 1) POST [("text", "Soon")]) 3 Blog.db).2 3 =
  S (Count_comments Blog.db 3).
Proof.
  apply (CommentCreateView_raises_count Blog.CommentForm
           (mkRequest (Authenticated 1) POST [("text", "Soon")]) 3 1 Blog.db
           (Comment.mk_instance "Soon" None None));
    [reflexivity | reflexivity | reflexivity | by exists Blog.post3].
Defined.

(** ann comments on post 3 and deletes the comment again. *)
Lemma comment_create_then_delete_witness :
  ∃ k, Comment_objects Blog.db !! k = None
       ∧ Comment_objects
           (CommentCreateView.dispatch Blog.CommentForm
              (mkRequest (Authenticated 1) POST [("text", "Soon")]) 3
              Blog.db).2 !! k = Some (Comment.mk "Soon" 1 3)
       ∧ CommentDeleteView.dispatch
           (mkRequest (Authenticated 1) POST [("text", "Soon")]) 3 k
           (CommentCreateView.dispatch Blog.CommentForm
              (mkRequest (Authenticated 1) POST [("text", "Soon")]) 3
              Blog.db).2 =
         (Ok (HttpResponseRedirect (blog_post_detail 3)), Blog.db).
Proof.
  apply (comment_create_then_delete Blog.CommentForm
           (mkRequest (Authenticated 1) POST [("text", "Soon")]) 3 1 Blog.db
           (Comment.mk_instance "Soon" None None));
    [reflexivity | by exists Blog.ann | reflexivity | reflexivity
    | by exists Blog.post3].
Defined.

(** ann comments on post 9, which is not stored. *)
Lemma CommentCreateView_missing_post_witness :
  (CommentCreateView.dispatch Blog.CommentForm
     (mkRequest (Authenticated 1) POST [("text", "Lost")]) 9 Blog.db).2 =
  Blog.db.
Proof.
  apply (CommentCreateView_missing_post Blog.CommentForm
           (mkRequest (Authenticated 1) POST [("text", "Lost")]) 9 Blog.db).
  reflexivity.
Defined.

(** bob renames himself; ann's row stays. *)
Lemma EditProfileView_writes_own_row_witness :
  User_objects
    (EditProfileView.dispatch BlogForms.EditProfileForm
       (mkRequest (Authenticated 2) POST [("username", "robert")])
       Blog.db).2 !! 1%nat = User_objects Blog.db !! 1%nat.
Proof.
  destruct (EditProfileView_writes_own_row BlogForms.EditProfileForm
              (mkRequest (Authenticated 2) POST [("username", "robert")])
              Blog.db 2 Blog.bob eq_refl eq_refl) as (H & _).
  apply H. discriminate.
Defined.

(** ann is served post 1, which is published everywhere. *)
Lemma PostDetailView_serves_only_what_it_may_witness :
  ∃ p, (1%nat, Blog.post1) = (1%nat, p)
       ∧ Post_objects Blog.db !! 1%nat = Some p
       ∧ (Authenticated 2 = Authenticated (Post.author p)
          ∨ (Post.is_published p = true
             ∧ (∃ c, Category_objects Blog.db !! Post.category p = Some c
                     ∧ Category.is_published c = true)
             ∧ (∃ l, Location_objects Blog.db !! Post.location p = Some l
                     ∧ Location.is_published l = true))).
Proof.
  apply (PostDetailView_serves_only_what_it_may Blog.db (Authenticated 2) 1
           (1%nat, Blog.post1)).
  vm_compute. reflexivity.
Defined.

(** The detail page of post 1 shows its two comments. *)
Lemma PostDetailView_get_comments_witness :
  length [(2%nat, Blog.comment2, Blog.ann); (1%nat, Blog.comment1, Blog.bob)] =
  Count_comments Blog.db 1.
Proof.
  destruct (PostDetailView_get_comments Blog.db AnonymousUser 1
              (1%nat, Blog.post1)
              [(2%nat, Blog.comment2, Blog.ann); (1%nat, Blog.comment1, Blog.bob)])
    as (_ & _ & Hlen); [vm_compute; reflexivity..|].
  exact Hlen.
Defined.

(** The first page of the category travel. *)
Lemma CategoryPostsListView_get_page_witness :
  Category.is_published (Category.mk "Travel" "travel" true) = true
  ∧ (∀ pk p n,
       (pk, p, n) ∈ [(2%nat, Blog.post2, 0%nat); (1%nat, Blog.post1, 2%nat)] →
       Post_objects Blog.db !! pk = Some p ∧ Post.category p = 1%nat
       ∧ Post.is_published p = true ∧ Post.pub_date p ≤ Blog.now
       ∧ n = Count_comments Blog.db pk).
Proof.
  destruct (CategoryPostsListView_get_page Blog.db Blog.now "travel" 1
              (1%nat, Category.mk "Travel" "travel" true)
              [(2%nat, Blog.post2, 0%nat); (1%nat, Blog.post1, 2%nat)])
    as (_ & _ & Hpub & Hposts & _); [vm_compute; reflexivity|].
  split; [exact Hpub|exact Hposts].
Defined.

(** The first page of bob's profile, seen by ann: the draft, which is due,
    and not the post scheduled for later. *)
Lemma UserDetailView_get_page_witness :
  User_objects Blog.db !! 2%nat = Some Blog.bob
  ∧ (∀ pk p n, (pk, p, n) ∈ [(4%nat, Blog.post4, 0%nat)] →
       Post_objects Blog.db !! pk = Some p ∧ Post.author p = 2%nat
       ∧ (Authenticated 1 ≠ Authenticated 2 → Post.pub_date p ≤ Blog.now)
       ∧ n = Count_comments Blog.db pk).
Proof.
  destruct (UserDetailView_get_page Blog.db Blog.now (Authenticated 1) "bob" 1
              (2%nat, Blog.bob) [(4%nat, Blog.post4, 0%nat)])
    as (HU & _ & Hposts & _); [vm_compute; reflexivity|].
  split; [exact HU|exact Hposts].
Defined.

(** No category has the slug "hidden" and is published; nobody is called
    "carol". *)
Lemma list_pages_not_found_witness :
  CategoryPostsListView_get Blog.db Blog.now "hidden" 1 = Raise Http404
  ∧ UserDetailView_get Blog.db Blog.now AnonymousUser "carol" 1 = Raise Http404.
Proof.
  destruct (list_pages_not_found Blog.db Blog.now 1) as [Hcat Huser].
  split.
  - apply Hcat. intros k c Hc Hslug. unfold Blog.db in Hc. simpl in Hc.
    apply lookup_insert_Some in Hc as [[<- <-]|[_ Hc]]; [discriminate Hslug|].
    apply lookup_singleton_Some in Hc as [<- <-]. reflexivity.
  - apply Huser. intros k v Hv. unfold Blog.db in Hv. simpl in Hv.
    apply lookup_insert_Some in Hv as [[<- <-]|[_ Hv]]; [discriminate|].
    apply lookup_singleton_Some in Hv as [<- <-]. discriminate.
Defined.
